(** * WebChatter: the conversation tree kept by [WebChat.ask]

    A shallow embedding of [webchatter/request.py] (the completion call
    [continue_chat] and the requests of the other functions) and
    [webchatter/webchatter.py] (the classes [Node] and [WebChat]), and the
    properties of the session state machine.

    Python values that travel through the code (decoded JSON payloads, ids,
    messages) are terms of [value]; a raised exception is the [Raise] branch
    of [result]; the session object is a record threaded through a
    state-and-exception monad, so that what a method had already assigned
    when it raised stays visible. *)

From Stdlib Require Import ZArith String Ascii List Lia.
From stdpp Require Import base option list strings gmap fin_maps.

#[local] Set Warnings "-register-all".
Local Open Scope Z_scope.
Local Open Scope string_scope.

(** ** Python values and exceptions *)

(** What [json.loads] can return, floats left out: the code only tests
    payload values for truth, uses them as keys and subscripts them. *)
Inductive value : Type :=
| VNone
| VBool (b : bool)
| VInt (z : Z)
| VStr (s : string)
| VList (l : list value)
| VDict (d : list (string * value)).

(** A [dict] with string keys, in insertion order. *)
Abbreviation dict := (list (string * value)).

(** The exception classes the modelled code can raise. *)
Inductive exn : Type :=
| AssertionError
| AttributeError
| IndexError
| JSONDecodeError
| KeyError
| RequestException
| TypeError
| ValueError.

Inductive result (A : Type) : Type :=
| Ok (a : A)
| Raise (e : exn).
Arguments Ok {A} a.
Arguments Raise {A} e.

#[global] Instance result_ret : MRet result := fun _ a => Ok a.
#[global] Instance result_bind : MBind result := fun _ _ f r =>
  match r with
  | Ok a => f a
  | Raise e => Raise e
  end.

Definition is_ok {A} (r : result A) : bool :=
  match r with Ok _ => true | Raise _ => false end.

(** [bool(v)] *)
Definition truthy (v : value) : bool :=
  match v with
  | VNone => false
  | VBool b => b
  | VInt z => negb (Z.eqb z 0)
  | VStr s => negb (String.eqb s "")
  | VList l => match l with [] => false | _ => true end
  | VDict d => match d with [] => false | _ => true end
  end.

(** [a or b], with [b] evaluated only when [a] is falsy. *)
Definition py_or (a : value) (b : result value) : result value :=
  if truthy a then Ok a else b.

(** [d.get(k)] on the association list: the first binding of [k]. *)
Fixpoint dict_get (k : string) (d : dict) : option value :=
  match d with
  | [] => None
  | (k', v) :: d' => if String.eqb k k' then Some v else dict_get k d'
  end.

(** [d[k] = v]: an existing key keeps its place, a new one goes last. *)
Fixpoint dict_set (k : string) (v : value) (d : dict) : dict :=
  match d with
  | [] => [(k, v)]
  | (k', v') :: d' =>
      if String.eqb k k' then (k, v) :: d' else (k', v') :: dict_set k v d'
  end.

(** [node.get(k)]: [None] when the key is missing. *)
Definition get (d : dict) (k : string) : value :=
  match dict_get k d with
  | Some v => v
  | None => VNone
  end.

(** [obj[k]] for a string key [k]: only a dict can be subscripted by a
    string; a missing key is a [KeyError]. *)
Definition getitem (obj : value) (k : string) : result value :=
  match obj with
  | VDict d =>
      match dict_get k d with
      | Some v => Ok v
      | None => Raise KeyError
      end
  | _ => Raise TypeError
  end.

(** [obj[0]]: first element of a list, first character of a string; a dict
    decoded from JSON has no key [0]. *)
Definition getitem0 (obj : value) : result value :=
  match obj with
  | VList (x :: _) => Ok x
  | VList [] => Raise IndexError
  | VStr (String c _) => Ok (VStr (String c ""))
  | VStr "" => Raise IndexError
  | VDict _ => Raise KeyError
  | _ => Raise TypeError
  end.

(** [obj[k] = v] for a string key: item assignment by string exists for
    dicts only. *)
Definition setitem (obj : value) (k : string) (v : value) : result value :=
  match obj with
  | VDict d => Ok (VDict (dict_set k v d))
  | _ => Raise TypeError
  end.

(** ** A JSON decoder for concrete payloads

    The properties below hold for any decoder (see the section variable
    [json_loads] in [Request]); this one is used to run the code on concrete
    response texts. It decodes the fragment of JSON without fractions,
    exponents and backslash escapes, the way [json.loads] does, and rejects
    the rest. *)

Module Json.

Definition is_ws (c : ascii) : bool :=
  match c with
  | " "%char | "009"%char | "010"%char | "013"%char => true
  | _ => false
  end.

Fixpoint skip_ws (s : string) : string :=
  match s with
  | String c s' => if is_ws c then skip_ws s' else s
  | "" => ""
  end.

Definition digit (c : ascii) : option Z :=
  let n := Z.of_nat (nat_of_ascii c) in
  if Z.leb 48 n && Z.leb n 57 then Some (n - 48)%Z else None.

Fixpoint digits (acc : Z) (s : string) : Z * string :=
  match s with
  | String c s' =>
      match digit c with
      | Some d => digits (10 * acc + d)%Z s'
      | None => (acc, s)
      end
  | "" => (acc, "")
  end.

(** [0] or a digit string without leading zero; a fraction or exponent after
    it is outside the fragment. *)
Definition natural (s : string) : option (Z * string) :=
  match s with
  | String c s' =>
      match digit c with
      | Some d =>
          let '(n, r) := if Z.eqb d 0 then (0%Z, s') else digits d s' in
          match r with
          | String "."%char _ | String "e"%char _ | String "E"%char _ => None
          | _ => Some (n, r)
          end
      | None => None
      end
  | "" => None
  end.

(** The characters of a string literal up to its closing quote. *)
Fixpoint str_lit (acc : string) (s : string) : option (string * string) :=
  match s with
  | "" => None
  | String c s' =>
      if Ascii.eqb c "034"%char then Some (acc, s')
      else if Ascii.eqb c "\"%char then None
      else if Nat.ltb (nat_of_ascii c) 32 then None
      else str_lit (acc +:+ String c "") s'
  end.

Fixpoint parse_value (fuel : nat) (s : string) : option (value * string) :=
  match fuel with
  | O => None
  | S fuel =>
      match skip_ws s with
      | String "n" (String "u" (String "l" (String "l" r))) => Some (VNone, r)
      | String "t" (String "r" (String "u" (String "e" r))) =>
          Some (VBool true, r)
      | String "f" (String "a" (String "l" (String "s" (String "e" r)))) =>
          Some (VBool false, r)
      | String "034" r =>
          '(x, r') ← str_lit "" r; Some (VStr x, r')
      | String "-" r =>
          '(n, r') ← natural r; Some (VInt (- n), r')
      | String "[" r =>
          match skip_ws r with
          | String "]" r' => Some (VList [], r')
          | _ => '(vs, r') ← parse_elems fuel r; Some (VList vs, r')
          end
      | String "{" r =>
          match skip_ws r with
          | String "}" r' => Some (VDict [], r')
          | _ =>
              '(kvs, r') ← parse_members fuel r;
              Some (VDict (fold_left (fun d kv => dict_set kv.1 kv.2 d) kvs []), r')
          end
      | r => '(n, r') ← natural r; Some (VInt n, r')
      end
  end
with parse_elems (fuel : nat) (s : string) : option (list value * string) :=
  match fuel with
  | O => None
  | S fuel =>
      '(v, r) ← parse_value fuel s;
      match skip_ws r with
      | String "," r' => '(vs, r'') ← parse_elems fuel r'; Some (v :: vs, r'')
      | String "]" r' => Some ([v], r')
      | _ => None
      end
  end
with parse_members (fuel : nat) (s : string) : option (dict * string) :=
  match fuel with
  | O => None
  | S fuel =>
      match skip_ws s with
      | String "034" r =>
          '(k, r) ← str_lit "" r;
          match skip_ws r with
          | String ":" r =>
              '(v, r) ← parse_value fuel r;
              match skip_ws r with
              | String "," r' =>
                  '(kvs, r'') ← parse_members fuel r'; Some ((k, v) :: kvs, r'')
              | String "}" r' => Some ([(k, v)], r')
              | _ => None
              end
          | _ => None
          end
      | _ => None
      end
  end.

(** [json.loads(s)] on the fragment. *)
Definition loads (s : string) : result value :=
  match parse_value (2 * String.length s + 2) s with
  | Some (v, r) =>
      match skip_ws r with
      | "" => Ok v
      | _ => Raise JSONDecodeError
      end
  | None => Raise JSONDecodeError
  end.

End Json.

(** ** request.py *)

Module Request.

(** [s.split(sep)] for a non-empty [sep]: occurrences are found left to
    right and do not overlap. [skip] counts the characters of a separator
    still to be dropped, [cur] is the piece read so far. *)
Fixpoint split_go (sep : string) (skip : nat) (cur : string) (s : string)
  : list string :=
  match s with
  | "" => [cur]
  | String c s' =>
      match skip with
      | S k => split_go sep k cur s'
      | O =>
          if String.prefix sep s
          then cur :: split_go sep (Nat.pred (String.length sep)) "" s'
          else split_go sep O (cur +:+ String c "") s'
      end
  end.

Definition split (sep s : string) : list string := split_go sep O "" s.

(** [l[start:stop]] with Python's treatment of negative and out-of-range
    bounds. *)
Definition slice {A} (l : list A) (start stop : Z) : list A :=
  let n := Z.of_nat (length l) in
  let norm (i : Z) := if Z.ltb i 0 then Z.max (i + n) 0 else Z.min i n in
  take (Z.to_nat (norm stop - norm start)) (drop (Z.to_nat (norm start)) l).

(** [a, b = l]: anything but two items is a [ValueError]. *)
Definition unpack2 {A} (l : list A) : result (A * A) :=
  match l with
  | [a; b] => Ok (a, b)
  | _ => Raise ValueError
  end.

Section Completion.

(** [json.loads]: either the decoded value or [JSONDecodeError]. *)
Variable json_loads : string -> result value.

(** [continue_chat], from the response of [requests.post] on: [response]
    is the body text, or the exception the transport raised.

    <<
    msg, info = response.text.split("data:")[-3:-1]
    return json.loads(msg), json.loads(info)
    >> *)
Definition continue_chat (response : result string) : result (value * value) :=
  text ← response;
  '(msg, info) ← unpack2 (slice (split "data:" text) (-3) (-1));
  m ← json_loads msg;
  i ← json_loads info;
  mret (m, i).

End Completion.

End Request.

(** ** webchatter.py: [Node] *)

(** [node.get(k)]: the method exists on dicts only. *)
Definition py_get (node : value) (k : string) : result value :=
  match node with
  | VDict d => Ok (get d k)
  | _ => Raise AttributeError
  end.

Module Node.

(** <<
    msg = node.get("message")
    if isinstance(msg, dict): msg = msg['content']['parts'][0]
    parent = node.get('parent')
    children = node.get("children")
    if not children:children = []
    node_id = node.get("id") or node['message']['id']
    return {"id": node_id, "message": msg, "parent": parent, "children": children}
    >> *)
Definition simplify (node : value) : result dict :=
  msg ← py_get node "message";
  msg ← match msg with
        | VDict _ =>
            content ← getitem msg "content";
            parts ← getitem content "parts";
            getitem0 parts
        | _ => Ok msg
        end;
  parent ← py_get node "parent";
  children ← py_get node "children";
  let children := if truthy children then children else VList [] in
  id ← py_get node "id";
  node_id ← py_or id (m ← getitem node "message"; getitem m "id");
  mret [("id", node_id); ("message", msg); ("parent", parent);
        ("children", children)].

(** The object state of a [Node]. [_children] and the ["children"] entry of
    [_node] are one list object in the source: [children_append] below
    updates both. *)
Record t : Type := mk {
  _node : dict;
  _message : value;
  _parent : value;
  _children : value;
  _node_id : value;
  name : string;
  depth : Z
}.

(** [Node(node, name, depth)] *)
Definition init (node : value) (name : string) (depth : Z) : result t :=
  n ← simplify node;
  message ← getitem (VDict n) "message";
  parent ← getitem (VDict n) "parent";
  children ← getitem (VDict n) "children";
  node_id ← getitem (VDict n) "id";
  mret (mk n message parent children node_id name depth).

(** The read-only properties. *)
Definition node (self : t) : dict := _node self.
Definition message (self : t) : value := _message self.
Definition parent (self : t) : value := _parent self.
Definition children (self : t) : value := _children self.
Definition node_id (self : t) : value := _node_id self.

(** [self.children.append(x)]: only a list has [append]. *)
Definition children_append (self : t) (x : value) : result t :=
  match children self with
  | VList l =>
      let l' := VList (l ++ [x]) in
      Ok (mk (dict_set "children" l' (_node self)) (_message self)
             (_parent self) l' (_node_id self) (name self) (depth self))
  | _ => Raise AttributeError
  end.

End Node.

(** The message rule of [Node.simplify] on its own:
    <<
    msg = node.get("message")
    if isinstance(msg, dict): msg = msg['content']['parts'][0]
    >> *)
Definition message_of (d : dict) : result value :=
  match get d "message" with
  | VDict m =>
      content ← getitem (VDict m) "content";
      parts ← getitem content "parts";
      getitem0 parts
  | v => Ok v
  end.

(** ** Keys of the session's [_mapping]

    A Python dict key is a hashable value, and [True], [1] are one key. *)
Inductive key : Type :=
| KNone
| KInt (z : Z)
| KStr (s : string).

#[global] Instance key_eq_dec : EqDecision key.
Proof. solve_decision. Defined.

#[global] Instance key_countable : Countable key.
Proof.
  refine (inj_countable'
    (fun k => match k with
              | KNone => inl ()
              | KInt z => inr (inl z)
              | KStr s => inr (inr s)
              end)
    (fun x => match x with
              | inl _ => KNone
              | inr (inl z) => KInt z
              | inr (inr s) => KStr s
              end) _).
  by intros [].
Defined.

(** [hash(v)]: lists and dicts are unhashable. *)
Definition hash (v : value) : result key :=
  match v with
  | VNone => Ok KNone
  | VBool b => Ok (KInt (if b then 1 else 0))
  | VInt z => Ok (KInt z)
  | VStr s => Ok (KStr s)
  | VList _ | VDict _ => Raise TypeError
  end.

(** [os.path.join(a, b)] of [posixpath]. *)
Fixpoint ends_with_sep (s : string) : bool :=
  match s with
  | "" => false
  | String c "" => Ascii.eqb c "/"
  | String _ s' => ends_with_sep s'
  end.

Definition os_path_join (a b : string) : string :=
  if String.prefix "/" b then b
  else if String.eqb a "" || ends_with_sep a then a +:+ b
  else a +:+ "/" +:+ b.

(** ** request.py: the requests

    Each function of request.py builds one HTTP request and returns what
    the server answers. The request is a record; the transport
    ([requests.get], [requests.post], [requests.patch] with the decoding
    of the response) is a parameter. *)

Module Api.

(** [params] is the dict given as [params=], [data] the object given to
    [json.dumps] for [data=]. *)
Record request : Type := Request {
  method : string;
  url : string;
  headers : list (string * string);
  params : option value;
  data : option value
}.

(** [f'Bearer {access_token}'] *)
Definition bearer (access_token : option string) : string :=
  "Bearer " +:+ match access_token with Some t => t | None => "None" end.

Definition json_headers (access_token : option string) : list (string * string) :=
  [("Content-Type", "application/json"); ("Authorization", bearer access_token)].

(** [os.path.join(a, b, c)] *)
Definition os_path_join3 (a b c : string) : string :=
  os_path_join (os_path_join a b) c.

Definition get_account_status_request (base_url : string)
    (access_token : option string) : request :=
  Request "GET" (os_path_join base_url "backend-api/accounts/check")
          (json_headers access_token) None None.

Definition get_models_request (base_url : string) (access_token : option string)
    (history_and_training_disabled : bool) : request :=
  Request "GET" (os_path_join base_url "backend-api/models")
          (json_headers access_token)
          (Some (VDict [("history_and_training_disabled",
                         VBool history_and_training_disabled)]))
          None.

Definition get_beta_features_request (base_url : string)
    (access_token : option string) : request :=
  Request "GET" (os_path_join base_url "backend-api/settings/beta_features")
          (json_headers access_token) None None.

Definition get_chat_list_request (base_url : string) (access_token : option string)
    (offset : value) (limit : value) (order : string) : request :=
  Request "GET" (os_path_join base_url "backend-api/conversations")
          (json_headers access_token)
          (Some (VDict [("offset", offset); ("limit", limit);
                        ("order", VStr order)]))
          None.

Definition get_chat_by_id_request (base_url : string) (access_token : option string)
    (conversation_id : string) : request :=
  Request "GET"
          (os_path_join3 base_url "backend-api/conversation" conversation_id)
          (json_headers access_token) None None.

Definition edit_chat_title_request (base_url : string)
    (access_token : option string) (conversation_id title : string) : request :=
  Request "PATCH"
          (os_path_join3 base_url "backend-api/conversation" conversation_id)
          (json_headers access_token) None
          (Some (VDict [("title", VStr title)])).

Definition delete_chat_request (base_url : string) (access_token : option string)
    (conversation_id : string) : request :=
  Request "PATCH"
          (os_path_join3 base_url "backend-api/conversation" conversation_id)
          (json_headers access_token) None
          (Some (VDict [("is_visible", VBool false)])).

(** The request of [continue_chat]; [uuid] is the result of its
    [str(uuid.uuid4())]. The three optional arguments go into the body as
    they are given. *)
Definition continue_chat_request (base_url : string) (access_token : option string)
    (prompt : string) (parent_message_id conversation_id model : value)
    (history_and_training_disabled : value) (uuid : string) : request :=
  Request "POST" (os_path_join base_url "backend-api/conversation")
          [("Content-Type", "application/json");
           ("Authorization", bearer access_token);
           ("Accept", "text/event-stream")]
          None
          (Some (VDict
             [("action", VStr "next");
              ("messages",
               VList [VDict [("id", VStr uuid);
                             ("author", VDict [("role", VStr "user")]);
                             ("content",
                              VDict [("content_type", VStr "text");
                                     ("parts", VList [VStr prompt])])]]);
              ("conversation_id", conversation_id);
              ("parent_message_id", parent_message_id);
              ("model", model);
              ("history_and_training_disabled", history_and_training_disabled)])).

(** <<
    parent_id = str(uuid.uuid4())
    return continue_chat(base_url, access_token, prompt, model,
                         history_and_training_disabled, parent_id)
    >>
    The last three arguments are positional: they land on
    [parent_message_id], [conversation_id] and [model], and
    [history_and_training_disabled] keeps its default. *)
Definition create_chat_request (base_url : string) (access_token : option string)
    (prompt : string) (model : string) (history_and_training_disabled : bool)
    (parent_id uuid : string) : request :=
  continue_chat_request base_url access_token prompt
    (VStr model) (VBool history_and_training_disabled) (VStr parent_id)
    (VBool false) uuid.

Section Transport.

(** [requests.<method>(...).json()] and [requests.post(...).text] *)
Variable send_json : request -> result value.
Variable send_text : request -> result string.
Variable json_loads : string -> result value.

Definition get_account_status (base_url : string) (access_token : option string)
  : result value :=
  send_json (get_account_status_request base_url access_token).

Definition get_models (base_url : string) (access_token : option string)
    (history_and_training_disabled : bool) : result value :=
  send_json (get_models_request base_url access_token
                                history_and_training_disabled).

Definition get_beta_features (base_url : string) (access_token : option string)
  : result value :=
  send_json (get_beta_features_request base_url access_token).

Definition get_chat_list (base_url : string) (access_token : option string)
    (offset limit : value) (order : string) : result value :=
  send_json (get_chat_list_request base_url access_token offset limit order).

Definition get_chat_by_id (base_url : string) (access_token : option string)
    (conversation_id : string) : result value :=
  send_json (get_chat_by_id_request base_url access_token conversation_id).

Definition edit_chat_title (base_url : string) (access_token : option string)
    (conversation_id title : string) : result value :=
  send_json (edit_chat_title_request base_url access_token conversation_id title).

Definition delete_chat (base_url : string) (access_token : option string)
    (conversation_id : string) : result value :=
  send_json (delete_chat_request base_url access_token conversation_id).

Definition continue_chat (base_url : string) (access_token : option string)
    (prompt : string) (parent_message_id conversation_id model : value)
    (history_and_training_disabled : value) (uuid : string)
  : result (value * value) :=
  Request.continue_chat json_loads
    (send_text (continue_chat_request base_url access_token prompt
                  parent_message_id conversation_id model
                  history_and_training_disabled uuid)).

Definition create_chat (base_url : string) (access_token : option string)
    (prompt : string) (model : string) (history_and_training_disabled : bool)
    (parent_id uuid : string) : result (value * value) :=
  continue_chat base_url access_token prompt
    (VStr model) (VBool history_and_training_disabled) (VStr parent_id)
    (VBool false) uuid.

End Transport.

End Api.

(** ** webchatter.py: [WebChat] *)

Module WebChat.

(** The attributes of a session object. *)
Record t : Type := mk {
  _base_url : option string;
  _access_token : option string;
  backend_url : string;
  _chat_id : value;
  _node_id : value;
  _root_id : value;
  _tree_id : value;
  _que_id : value;
  _mapping : gmap key Node.t
}.

(** The read-only properties. *)
Definition base_url (self : t) : option string := _base_url self.
Definition access_token (self : t) : option string := _access_token self.
Definition chat_id (self : t) : value := _chat_id self.
Definition node_id (self : t) : value := _node_id self.
Definition root_id (self : t) : value := _root_id self.
Definition tree_id (self : t) : value := _tree_id self.
Definition mapping (self : t) : gmap key Node.t := _mapping self.

(** Attribute assignment [self.x = v], one function per attribute. *)
Definition with_backend_url (u : string) (s : t) : t :=
  mk (_base_url s) (_access_token s) u (_chat_id s) (_node_id s)
     (_root_id s) (_tree_id s) (_que_id s) (_mapping s).
Definition with_chat_id (v : value) (s : t) : t :=
  mk (_base_url s) (_access_token s) (backend_url s) v (_node_id s)
     (_root_id s) (_tree_id s) (_que_id s) (_mapping s).
Definition with_node_id (v : value) (s : t) : t :=
  mk (_base_url s) (_access_token s) (backend_url s) (_chat_id s) v
     (_root_id s) (_tree_id s) (_que_id s) (_mapping s).
Definition with_root_id (v : value) (s : t) : t :=
  mk (_base_url s) (_access_token s) (backend_url s) (_chat_id s) (_node_id s)
     v (_tree_id s) (_que_id s) (_mapping s).
Definition with_tree_id (v : value) (s : t) : t :=
  mk (_base_url s) (_access_token s) (backend_url s) (_chat_id s) (_node_id s)
     (_root_id s) v (_que_id s) (_mapping s).
Definition with_que_id (v : value) (s : t) : t :=
  mk (_base_url s) (_access_token s) (backend_url s) (_chat_id s) (_node_id s)
     (_root_id s) (_tree_id s) v (_mapping s).
Definition with_mapping (m : gmap key Node.t) (s : t) : t :=
  mk (_base_url s) (_access_token s) (backend_url s) (_chat_id s) (_node_id s)
     (_root_id s) (_tree_id s) (_que_id s) m.

(** A method body: it reads and assigns attributes of [self] and returns or
    raises; what was assigned before a raise stays assigned. *)
Definition M (A : Type) : Type := t -> result A * t.

#[global] Instance M_ret : MRet M := fun _ a s => (Ok a, s).
#[global] Instance M_bind : MBind M := fun _ _ f c s =>
  match c s with
  | (Ok a, s') => f a s'
  | (Raise e, s') => (Raise e, s')
  end.

Definition self : M t := fun s => (Ok s, s).
Definition assign (f : t -> t) : M unit := fun s => (Ok tt, f s).
Definition lift {A} (r : result A) : M A := fun s => (r, s).
Definition raise {A} (e : exn) : M A := lift (Raise e).

(** [a or b] on [Union[str, None]] *)
Definition str_or (a b : option string) : option string :=
  match a with
  | Some s => if String.eqb s "" then b else a
  | None => b
  end.

Definition of_optional (o : option string) : value :=
  match o with
  | Some s => VStr s
  | None => VNone
  end.

Section Package.

(** The package-level defaults [webchatter.base_url],
    [webchatter.backend_url] and [webchatter.access_token]. *)
Variables default_base_url default_backend_url default_access_token
  : option string.

(** <<
    self._base_url = base_url or webchatter.base_url
    self._access_token = access_token or webchatter.access_token
    self.backend_url = backend_url or webchatter.backend_url
                       or os.path.join(self.base_url, "backend-api")
    assert self.backend_url is not None, ...
    assert self.access_token is not None, ...
    self._chat_id = chat_id
    self._node_id = node_id
    self._root_id, self._tree_id, self._que_id = None, None, None
    self._mapping = {}
    >> *)
Definition init (base_url backend_url access_token chat_id node_id
    : option string) : result t :=
  let base := str_or base_url default_base_url in
  let token := str_or access_token default_access_token in
  backend ←
    match str_or backend_url default_backend_url with
    | Some u => if String.eqb u "" then
                  match base with
                  | Some b => Ok (os_path_join b "backend-api")
                  | None => Raise TypeError
                  end
                else Ok u
    | None =>
        match base with
        | Some b => Ok (os_path_join b "backend-api")
        | None => Raise TypeError
        end
    end;
  match token with
  | None => Raise AssertionError
  | Some _ =>
      Ok (mk base token backend (of_optional chat_id) (of_optional node_id)
             VNone VNone VNone ∅)
  end.

End Package.

(** [{k1: n1, k2: n2, ...}]: keys are hashed left to right, a later equal
    key overwrites. *)
Fixpoint dict_literal (m : gmap key Node.t) (items : list (value * Node.t))
  : result (gmap key Node.t) :=
  match items with
  | [] => Ok m
  | (k, n) :: items' => h ← hash k; dict_literal (<[h:=n]> m) items'
  end.

(** [self._mapping[k]] *)
Definition mapping_getitem (k : value) : M (key * Node.t) :=
  s ← self;
  h ← lift (hash k);
  match _mapping s !! h with
  | Some n => mret (h, n)
  | None => raise KeyError
  end.

(** [self._mapping[k] = n] *)
Definition mapping_setitem (k : value) (n : Node.t) : M unit :=
  h ← lift (hash k);
  assign (fun s => with_mapping (<[h:=n]> (_mapping s)) s).

(** [ask(message, keep)]. [completion] is what the call of
    [chat_completion] gives here, the pair of decoded payloads or the
    exception it raised ([Request.continue_chat] on the response at hand);
    [uuid1], [uuid2] are the next two results of [str(uuid.uuid4())]. *)
Definition ask (completion : result (value * value)) (uuid1 uuid2 : string)
    (message : string) (keep : bool) : M value :=
  s ← self;
  match chat_id s with
  | VNone =>
      let tree_id := VStr uuid1 in
      let que_id := VStr uuid2 in
      '(root_resp, ans_resp) ← lift completion;
      root_resp ← lift (setitem root_resp "children" (VList [que_id]));
      root_resp ← lift (setitem root_resp "parent" tree_id);
      ans_resp ← lift (setitem ans_resp "children" (VList []));
      ans_resp ← lift (setitem ans_resp "parent" que_id);
      root_node ← lift (Node.init root_resp "root" 0);
      tree_node ← lift (Node.init
        (VDict [("id", tree_id); ("message", VNone);
                ("children", VList [Node.node_id root_node]);
                ("parent", VNone)]) "" 0);
      ans_node ← lift (Node.init ans_resp "A1" 0);
      que_node ← lift (Node.init
        (VDict [("id", que_id); ("message", VStr message);
                ("children", VList [Node.node_id ans_node]);
                ("parent", Node.node_id root_node)]) "Q1" 0);
      conversation_id ← lift (getitem ans_resp "conversation_id");
      assign (with_chat_id conversation_id);;
      assign (with_tree_id tree_id);;
      assign (with_root_id (Node.node_id root_node));;
      assign (with_node_id (Node.node_id ans_node));;
      assign (with_que_id (Node.node_id que_node));;
      m ← lift (dict_literal ∅
        [(tree_id, tree_node); (Node.node_id root_node, root_node);
         (Node.node_id ans_node, ans_node);
         (Node.node_id que_node, que_node)]);
      assign (with_mapping m);;
      mret (Node.message ans_node)
  | _ =>
      let que_id := VStr uuid1 in
      '(_, ans_resp) ← lift completion;
      ans_resp ← lift (setitem ans_resp "parent" que_id);
      ans_node ← lift (Node.init ans_resp "" 0);
      que_node ← lift (Node.init
        (VDict [("id", que_id); ("message", VStr message);
                ("children", VList [Node.node_id ans_node]);
                ("parent", node_id s)]) "" 0);
      '(h, prev) ← mapping_getitem (node_id s);
      prev ← lift (Node.children_append prev que_id);
      assign (fun s => with_mapping (<[h:=prev]> (_mapping s)) s);;
      assign (with_node_id (Node.node_id ans_node));;
      assign (with_que_id (Node.node_id que_node));;
      mapping_setitem (Node.node_id ans_node) ans_node;;
      mapping_setitem (Node.node_id que_node) que_node;;
      mret (Node.message ans_node)
  end.

(** [goto(node_id)]: the body is a docstring and a TODO. *)
Definition goto (node_id : value) : M value := mret VNone.

(** The property setters. *)
Definition set_base_url (new_url : string) : M unit :=
  assign (with_backend_url (os_path_join new_url "backend-api")).
Definition set_access_token (v : value) : M unit := raise AttributeError.
Definition set_chat_id (v : value) : M unit := raise AttributeError.
Definition set_node_id (v : value) : M unit := raise AttributeError.

(** The keys of a dict in the order of iteration: the first binding of a
    key is the one [dict_get] reads. *)
Fixpoint dict_keys (seen : list string) (d : dict) : list string :=
  match d with
  | [] => []
  | (k, _) :: d' =>
      if bool_decide (k ∈ seen) then dict_keys seen d'
      else k :: dict_keys (k :: seen) d'
  end.

(** [for x in v]: a list gives its elements, a dict its keys, a string
    its characters; nothing else can be iterated. *)
Definition iter (v : value) : result (list value) :=
  match v with
  | VList l => Ok l
  | VDict d => Ok (map VStr (dict_keys [] d))
  | VStr s => Ok (map (fun c => VStr (String c "")) (list_ascii_of_string s))
  | _ => Raise TypeError
  end.

(** [v.items()]: the method exists on dicts only. *)
Definition items (v : value) : result (list (string * value)) :=
  match v with
  | VDict d => Ok (map (fun k => (k, get d k)) (dict_keys [] d))
  | _ => Raise AttributeError
  end.

Section Calls.

Variable send_json : Api.request -> result value.

(** <<
    url, token = self.backend_url, self.access_token
    resp = get_account_status(url, token)
    return resp['account_plan']
    >> *)
Definition account_status : M value :=
  s ← self;
  resp ← lift (Api.get_account_status send_json (backend_url s) (access_token s));
  lift (getitem resp "account_plan").

(** [[model['category'] for model in resp["categories"]]] *)
Definition valid_models : M (list value) :=
  s ← self;
  resp ← lift (Api.get_models send_json (backend_url s) (access_token s) false);
  categories ← lift (getitem resp "categories");
  models ← lift (iter categories);
  lift (mapM (fun model => getitem model "category") models).

Definition beta_features : M value :=
  s ← self;
  lift (Api.get_beta_features send_json (backend_url s) (access_token s)).

(** [[{'conversation_id':item['id'],'title': item['title']}
      for item in resp['items']]] *)
Definition chat_list (offset limit : value) (order : string) : M (list value) :=
  s ← self;
  resp ← lift (Api.get_chat_list send_json (backend_url s) (access_token s)
                 offset limit order);
  its ← lift (getitem resp "items");
  its ← lift (iter its);
  lift (mapM (fun item =>
                id ← getitem item "id";
                title ← getitem item "title";
                mret (VDict [("conversation_id", id); ("title", title)]))
             its).

(** [get_chat_list(url, token)] with its defaults, then [resp['total']]. *)
Definition num_of_chats : M value :=
  s ← self;
  resp ← lift (Api.get_chat_list send_json (backend_url s) (access_token s)
                 (VInt 0) VNone "updated");
  lift (getitem resp "total").

(** <<
    chat_id = chat_id or self.chat_id
    assert chat_id is not None, "The chat id is not set!"
    resp = get_chat_by_id(url, token, chat_id)
    return {key: Node(node) for key, node in resp['mapping'].items()}
    >>
    [os.path.join] takes the id only when it is a string. *)
Definition mapping_by_id (chat_id : value) : M (list (string * Node.t)) :=
  s ← self;
  let chat_id := if truthy chat_id then chat_id else WebChat.chat_id s in
  match chat_id with
  | VNone => raise AssertionError
  | VStr cid =>
      resp ← lift (Api.get_chat_by_id send_json (backend_url s) (access_token s) cid);
      mapping ← lift (getitem resp "mapping");
      its ← lift (items mapping);
      lift (mapM (fun '(key, node) => n ← Node.init node "" 0; mret (key, n)) its)
  | _ => raise TypeError
  end.


End Calls.

(** [chat_log]: the empty list while there is no current node; otherwise
    the body ends at a TODO and returns [None]. *)
Definition chat_log (s : t) : value :=
  match node_id s with
  | VNone => VList []
  | _ => VNone
  end.

End WebChat.

(** * Reference definitions

    Definitions that follow the wording of the specification, to compare
    the code with. *)

Module Reference.
Import Request.

(** The frame selection as the specification words it: of the non-empty
    pieces between [data:] delimiters, the second-to-last and the last. *)
Definition last_two_nonempty_frames (text : string) : result (string * string) :=
  let frames := filter (fun s => s ≠ "") (split "data:" text) in
  match rev frames with
  | last :: before :: _ => Ok (before, last)
  | _ => Raise ValueError
  end.

Definition completion_of_last_two (json_loads : string -> result value)
    (text : string) : result (value * value) :=
  '(msg, info) ← last_two_nonempty_frames text;
  m ← json_loads msg;
  i ← json_loads info;
  mret (m, i).

(** The id rule as the specification words it: the explicit [id] when the
    key is present, else the [id] of the nested message, else a failure. *)
Definition resolve_id_by_presence (raw : dict) : result value :=
  match dict_get "id" raw with
  | Some v => Ok v
  | None =>
      match dict_get "message" raw with
      | Some (VDict m) =>
          match dict_get "id" m with
          | Some v => Ok v
          | None => Raise KeyError
          end
      | _ => Raise KeyError
      end
  end.

(** Message and children as the specification words them, for every raw
    node: the first content part of a nested message, any other message
    (None included) passed through, and the children with the empty list
    as default. *)
Definition message_and_children (raw : dict) : result (value * value) :=
  msg ← match get raw "message" with
        | VDict m =>
            content ← getitem (VDict m) "content";
            parts ← getitem content "parts";
            getitem0 parts
        | v => Ok v
        end;
  mret (msg, if truthy (get raw "children") then get raw "children"
             else VList []).

End Reference.

(** * Sequences of calls

    What a caller does with a session: one [ask] after the other, each
    with the outcome of its completion call and the ids [uuid4] drew. *)

Module Trace.

Record call : Type := Call {
  completion : result (value * value);
  uuid1 : string;
  uuid2 : string;
  message : string;
  keep : bool
}.

Definition ask (c : call) : WebChat.M value :=
  WebChat.ask (completion c) (uuid1 c) (uuid2 c) (message c) (keep c).

(** The ids under which a successful [ask] from [s] to [s'] stored nodes:
    four on the call that creates the conversation, two afterwards. *)
Definition new_ids (s s' : WebChat.t) : list value :=
  match WebChat.chat_id s with
  | VNone => [WebChat.tree_id s'; WebChat.root_id s';
              WebChat.node_id s'; WebChat._que_id s']
  | _ => [WebChat.node_id s'; WebChat._que_id s']
  end.

(** The store the new nodes are added to: the call that creates the
    conversation builds a new one. *)
Definition store_before (s : WebChat.t) : gmap key Node.t :=
  match WebChat.chat_id s with
  | VNone => ∅
  | _ => WebChat._mapping s
  end.

(** The ids are pairwise different keys, and none is a key of [m]. *)
Definition keys_fresh (m : gmap key Node.t) (ids : list value) : bool :=
  match mapM hash ids with
  | Ok ks =>
      bool_decide (NoDup ks) && forallb (fun k => bool_decide (m !! k = None)) ks
  | Raise _ => false
  end.

(** The answer payload carries a [conversation_id] other than [null]. *)
Definition conversation_id_set (c : call) : bool :=
  match completion c with
  | Ok (_, ans_resp) =>
      match getitem ans_resp "conversation_id" with
      | Ok VNone => false
      | Ok _ => true
      | Raise _ => false
      end
  | Raise _ => false
  end.

(** [asks cs s s']: the calls [cs], made in this order on a session in
    state [s], all return and leave the session in state [s']; the ids of
    the nodes each call stores are new, and the call that creates the
    conversation is answered with a conversation id. *)
Inductive asks : list call -> WebChat.t -> WebChat.t -> Prop :=
| asks_nil s : asks [] s s
| asks_cons c cs s s1 s2 ans :
    ask c s = (Ok ans, s1) ->
    keys_fresh (store_before s) (new_ids s s1) = true ->
    (WebChat.chat_id s = VNone -> conversation_id_set c = true) ->
    asks cs s1 s2 ->
    asks (c :: cs) s s2.

(** The sessions a caller can hold: constructed, then used through [ask]
    (whether it returns or raises) and the [base_url] setter. *)
Inductive reachable : WebChat.t -> Prop :=
| reachable_init db dk dt base backend token cid nid s :
    WebChat.init db dk dt base backend token cid nid = Ok s ->
    reachable s
| reachable_ask c s r s' :
    reachable s -> ask c s = (r, s') -> reachable s'
| reachable_set_base_url u s r s' :
    reachable s -> WebChat.set_base_url u s = (r, s') -> reachable s'.

(** What a caller can do to a session object they hold: call [ask] or
    [goto], or assign to one of the four properties that have a setter. *)
Inductive op : Type :=
| Ask (c : call)
| Goto (node_id : value)
| SetBaseUrl (new_url : string)
| SetAccessToken (v : value)
| SetChatId (v : value)
| SetNodeId (v : value).

(** The session after one such operation, whether it returned or raised. *)
Definition apply_op (o : op) (s : WebChat.t) : WebChat.t :=
  match o with
  | Ask c => (ask c s).2
  | Goto node_id => (WebChat.goto node_id s).2
  | SetBaseUrl new_url => (WebChat.set_base_url new_url s).2
  | SetAccessToken v => (WebChat.set_access_token v s).2
  | SetChatId v => (WebChat.set_chat_id v s).2
  | SetNodeId v => (WebChat.set_node_id v s).2
  end.

(** The session after the operations [ops], made in this order. *)
Definition run (ops : list op) (s : WebChat.t) : WebChat.t :=
  fold_left (fun s o => apply_op o s) ops s.

(** The attributes of a node and the four entries of its dict agree. *)
Definition well_formed (n : Node.t) : Prop :=
  Node.node n = [("id", Node.node_id n); ("message", Node.message n);
                 ("parent", Node.parent n); ("children", Node.children n)].

(** The parent of a node is [None] or one of the known keys. *)
Definition parent_known (known : key -> Prop) (n : Node.t) : Prop :=
  Node.parent n = VNone \/
  exists k, hash (Node.parent n) = Ok k /\ known k.

(** A node as the store should hold it under the key [k]: [k] is the key
    of its own id, it is well formed, and its parent is known. *)
Definition node_ok (known : key -> Prop) (k : key) (n : Node.t) : Prop :=
  hash (Node.node_id n) = Ok k /\ well_formed n /\ parent_known known n.

(** Every node of the store is stored under its own id, is well formed,
    and has its parent in the store. *)
Definition store_ok (m : gmap key Node.t) : Prop :=
  map_Forall (node_ok (fun k => is_Some (m !! k))) m.

End Trace.

(** * Example data *)

Module Examples.

(** A raw node with an empty [id] and a nested message that carries an id
    and one content part. *)
Definition raw_empty_id : dict :=
  [("id", VStr "");
   ("message", VDict [("id", VStr "m");
                      ("content", VDict [("parts", VList [VStr "hi"])])])].

(** A raw node as the server sends it: no [id] of its own, a nested
    message with an id and one content part. *)
Definition raw_frame : dict :=
  [("message", VDict [("id", VStr "a");
                      ("content", VDict [("parts", VList [VStr "hi"])])]);
   ("conversation_id", VStr "c")].

(** A raw node in simplified shape, as [ask] builds it for a question. *)
Definition raw_question : dict :=
  [("id", VStr "q"); ("message", VStr "hello");
   ("children", VList [VStr "a"]); ("parent", VStr "r")].

(** A session constructed with a base url and a token and nothing else. *)
Definition fresh : WebChat.t :=
  WebChat.mk (Some "https://host") (Some "token") "https://host/backend-api"
             VNone VNone VNone VNone VNone ∅.

(** A decoded frame of the completion stream: a message with an id and
    one content part, and the conversation it belongs to. *)
Definition frame (id : value) (part : string) (conversation : value) : value :=
  VDict [("message", VDict [("id", id);
                            ("content", VDict [("parts", VList [VStr part])])]);
         ("conversation_id", conversation)].

(** Two asks on a new session, every id different. *)
Definition first_call : Trace.call :=
  Trace.Call (Ok (frame (VStr "r") "" (VStr "c"), frame (VStr "a") "hi" (VStr "c")))
             "t" "q" "hello" true.

Definition second_call : Trace.call :=
  Trace.Call (Ok (frame (VStr "a2") "fi" (VStr "c"),
                  frame (VStr "a2") "fine" (VStr "c")))
             "q2" "unused" "how are you" true.

Definition after_first : WebChat.t := (Trace.ask first_call fresh).2.
Definition after_second : WebChat.t := (Trace.ask second_call after_first).2.

(** Both frames carry the id of the one message being streamed, and the
    conversation id is [null]. *)
Definition same_id_call : Trace.call :=
  Trace.Call (Ok (frame (VStr "a") "h" VNone, frame (VStr "a") "hi" VNone))
             "t" "q" "hello" true.

(** The id of the first frame is a list. *)
Definition list_id_call : Trace.call :=
  Trace.Call (Ok (frame (VList [VStr "r"]) "" (VStr "c"),
                  frame (VStr "a") "hi" (VStr "c")))
             "t" "q" "hello" true.

(** The answer comes back under the id the question was sent with. *)
Definition echoed_id_call : Trace.call :=
  Trace.Call (Ok (frame (VStr "r") "" (VStr "c"), frame (VStr "q") "hi" (VStr "c")))
             "t" "q" "hello" true.

(** A server that gives the same answer to every request. *)
Definition server (_ : Api.request) : result value :=
  Ok (VDict [("account_plan", VStr "free");
             ("items", VList [VDict [("id", VStr "c1"); ("title", VStr "t1")]]);
             ("total", VInt 1);
             ("mapping",
              VDict [("n1", VDict [("id", VStr "n1"); ("message", VNone)])])]).

(** The node of the raw node [n1] of that answer. *)
Definition n1_node : Node.t :=
  Node.mk [("id", VStr "n1"); ("message", VNone); ("parent", VNone);
           ("children", VList [])]
          VNone VNone (VList []) (VStr "n1") "" 0.

End Examples.

(** * Properties *)

(** ** The completion call *)

Module RequestSpec.
Import Request.

Lemma slice_last_three {A} (pre : list A) (a b c : A) :
  slice (pre ++ [a; b; c]) (-3) (-1) = [a; b].
Proof.
  unfold slice. rewrite length_app. cbn [length].
  replace (Z.of_nat (length pre + 3)) with (Z.of_nat (length pre) + 3)%Z by lia.
  cbn [Z.ltb Z.compare].
  replace (Z.max (-3 + (Z.of_nat (length pre) + 3)) 0)
    with (Z.of_nat (length pre)) by lia.
  replace (Z.max (-1 + (Z.of_nat (length pre) + 3)) 0 - Z.of_nat (length pre))%Z
    with 2%Z by lia.
  rewrite Nat2Z.id, drop_app_length. reflexivity.
Qed.

Lemma slice_too_short {A} (l : list A) :
  (length l < 3)%nat -> unpack2 (slice l (-3) (-1)) = Raise ValueError.
Proof.
  destruct l as [|a [|b [|c l]]]; cbn [length]; intros H;
    [reflexivity | reflexivity | reflexivity | lia].
Qed.

(** What the unpacking of [pieces[-3:-1]] gives, read from the end of the
    list of pieces. *)
Lemma unpack_slice {A} (l : list A) :
  unpack2 (slice l (-3) (-1)) =
  match rev l with
  | _ :: info :: msg :: _ => Ok (msg, info)
  | _ => Raise ValueError
  end.
Proof.
  destruct (rev l) as [|c [|b [|a r]]] eqn:E;
    apply (f_equal (@rev A)) in E; rewrite rev_involutive in E; subst l.
  - reflexivity.
  - reflexivity.
  - reflexivity.
  - cbn [rev]. rewrite <- !app_assoc. cbn [app].
    rewrite slice_last_three. reflexivity.
Qed.

(** [split] never returns the empty list. *)
Lemma split_go_nonempty sep skip cur s : split_go sep skip cur s ≠ [].
Proof.
  revert skip cur. induction s as [|c s IH]; intros skip cur; cbn [split_go].
  - discriminate.
  - destruct skip as [|k].
    + destruct (String.prefix sep (String c s)); [discriminate | apply IH].
    + apply IH.
Qed.

End RequestSpec.

Module SplitSpec.
Import Request.

Lemma append_cons (x : ascii) (a b : string) :
  String x a +:+ b = String x (a +:+ b).
Proof. reflexivity. Qed.

Lemma append_assoc (a b c : string) : (a +:+ b) +:+ c = a +:+ (b +:+ c).
Proof.
  induction a as [|x a IH]; [reflexivity|].
  by rewrite !append_cons, IH.
Qed.

Lemma append_empty_r (a : string) : a +:+ "" = a.
Proof.
  induction a as [|x a IH]; [reflexivity|]. by rewrite append_cons, IH.
Qed.

Lemma length_append_r (a b : string) :
  (String.length b <= String.length (a +:+ b))%nat.
Proof.
  induction a as [|x a IH]; [reflexivity|].
  rewrite append_cons. cbn [String.length]. lia.
Qed.

Lemma prefix_split (p s : string) :
  String.prefix p s = true -> exists rest, s = p +:+ rest.
Proof.
  revert s. induction p as [|a p IH]; intros s H.
  - exists s. reflexivity.
  - destruct s as [|b s]; [discriminate|]. cbn [String.prefix] in H.
    destruct (ascii_dec a b) as [->|]; [|discriminate].
    destruct (IH _ H) as [rest ->]. exists rest. reflexivity.
Qed.

(** Once inside a separator, the scan drops what is left of it. *)
Lemma split_go_skip sep cur (p s : string) :
  split_go sep (String.length p) cur (p +:+ s) = split_go sep O cur s.
Proof.
  induction p as [|a p IH]; [reflexivity|].
  rewrite append_cons. cbn [String.length split_go]. apply IH.
Qed.

Lemma concat_cons sep x (l : list string) :
  l ≠ [] -> String.concat sep (x :: l) = x +:+ sep +:+ String.concat sep l.
Proof. destruct l; [congruence | reflexivity]. Qed.

(** Joining the pieces of [split] with the separator gives the text back. *)
Lemma split_go_join sep n : sep ≠ "" -> forall s cur,
  (String.length s <= n)%nat ->
  String.concat sep (split_go sep O cur s) = cur +:+ s.
Proof.
  intros Hsep. induction n as [|n IH]; intros s cur Hn.
  - destruct s; [|cbn in Hn; lia]. cbn [split_go String.concat].
    by rewrite append_empty_r.
  - destruct s as [|c s].
    { cbn [split_go String.concat]. by rewrite append_empty_r. }
    cbn [split_go].
    destruct (String.prefix sep (String c s)) eqn:Hp.
    + destruct (prefix_split _ _ Hp) as [rest Hrest].
      destruct sep as [|a sep]; [congruence|].
      rewrite append_cons in Hrest. injection Hrest as -> ->.
      cbn [String.length Nat.pred]. rewrite split_go_skip.
      rewrite concat_cons by apply RequestSpec.split_go_nonempty.
      rewrite IH.
      * reflexivity.
      * cbn [String.length] in Hn. pose proof (length_append_r sep rest). lia.
    + rewrite IH by (cbn [String.length] in Hn; lia).
      rewrite append_assoc. reflexivity.
Qed.

Lemma split_join (sep s : string) :
  sep ≠ "" -> String.concat sep (split sep s) = s.
Proof.
  intros H. unfold split. by rewrite (split_go_join sep (String.length s)).
Qed.

End SplitSpec.

(** ** C3: which frames the completion call returns *)

Module CompletionFrames.
Import Request.

(** C3, as amended. [continue_chat] splits the response text on [data:] and
    decodes the third-to-last and the second-to-last piece of the split, in
    that order; the last piece (the stream terminator) is dropped and empty
    pieces are not filtered out. With fewer than three pieces the call
    raises [ValueError]; an exception of the transport or of the decoder
    reaches the caller as it is. *)
Theorem continue_chat_frames (json_loads : string -> result value) :
  (forall e, continue_chat json_loads (Raise e) = Raise e) /\
  (forall text,
     continue_chat json_loads (Ok text) =
     match rev (split "data:" text) with
     | _ :: info :: msg :: _ =>
         match json_loads msg, json_loads info with
         | Ok m, Ok i => Ok (m, i)
         | Raise e, _ => Raise e
         | Ok _, Raise e => Raise e
         end
     | _ => Raise ValueError
     end).
Proof.
  split; [reflexivity|]. intros text. unfold continue_chat.
  cbn [mbind result_bind]. rewrite RequestSpec.unpack_slice.
  destruct (rev (split "data:" text)) as [|c [|b [|a r]]]; reflexivity.
Qed.

(** C3 as stated fails: on a stream of three frames the call returns the
    first and the second, where the last two non-empty frames are the
    second and the third. *)
Lemma continue_chat_not_last_two :
  continue_chat Json.loads (Ok "data: 1 data: 2 data: 3")
    = Ok (VInt 1, VInt 2) /\
  Reference.completion_of_last_two Json.loads "data: 1 data: 2 data: 3"
    = Ok (VInt 2, VInt 3) /\
  continue_chat Json.loads (Ok "data: 1 data: 2 data: 3")
    <> Reference.completion_of_last_two Json.loads "data: 1 data: 2 data: 3".
Proof. vm_compute. repeat split; congruence. Qed.

End CompletionFrames.

(** ** C4, C5, C10: node normalization *)

Module NodeSpec.

Import Examples.

Ltac unfold_simplify :=
  unfold Node.simplify, py_get, py_or, get, getitem;
  cbn [mbind mret result_bind result_ret].

Ltac run_cases :=
  repeat first
    [ progress unfold mret, mbind, result_ret, result_bind in *
    | progress cbn [dict_get String.eqb Ascii.eqb Bool.eqb getitem getitem0]
        in *
    | progress simplify_eq
    | case_match ].

Lemma getitem0_raises (v : value) (e : exn) :
  getitem0 v = Raise e -> e = KeyError \/ e = TypeError \/ e = IndexError.
Proof.
  destruct v as [| | |[|c s]|[|x l]|]; cbn; intros H; simplify_eq; auto.
Qed.

(** The outcomes of [Node.simplify] on a dict, case by case: the message
    cannot be read; it can and the explicit id is truthy; it can and the
    id is the nested message's; no id can be found. *)
Lemma simplify_no_message (d : dict) (e : exn) :
  message_of d = Raise e -> Node.simplify (VDict d) = Raise e.
Proof.
  unfold message_of. unfold_simplify.
  destruct (match dict_get "message" d with Some v => v | None => VNone end)
    as [| | | | |m]; try discriminate.
  intros ->. reflexivity.
Qed.

Lemma simplify_explicit_id (d : dict) (msg : value) :
  message_of d = Ok msg ->
  truthy (get d "id") = true ->
  Node.simplify (VDict d) =
    Ok [("id", get d "id"); ("message", msg); ("parent", get d "parent");
        ("children",
         if truthy (get d "children") then get d "children" else VList [])].
Proof.
  unfold message_of. unfold_simplify. intros Hmsg Hid.
  unfold get in Hid. rewrite Hid.
  destruct (match dict_get "message" d with Some v => v | None => VNone end)
    as [| | | | |m]; try (injection Hmsg as <-; reflexivity).
  rewrite Hmsg. reflexivity.
Qed.

Lemma simplify_message_id (d m : dict) (msg mid : value) :
  message_of d = Ok msg ->
  truthy (get d "id") = false ->
  dict_get "message" d = Some (VDict m) ->
  dict_get "id" m = Some mid ->
  Node.simplify (VDict d) =
    Ok [("id", mid); ("message", msg); ("parent", get d "parent");
        ("children",
         if truthy (get d "children") then get d "children" else VList [])].
Proof.
  unfold message_of. unfold_simplify. intros Hmsg Hid Hm Hmid.
  unfold get in Hid. rewrite Hid. rewrite Hm in *.
  rewrite Hmsg. cbn [mbind result_bind]. rewrite Hmid. reflexivity.
Qed.

Lemma simplify_no_id (d : dict) :
  truthy (get d "id") = false ->
  (forall m, dict_get "message" d = Some (VDict m) -> dict_get "id" m = None) ->
  exists e, Node.simplify (VDict d) = Raise e /\
            (e = KeyError \/ e = TypeError \/ e = IndexError).
Proof.
  intros Ht Hno. unfold_simplify.
  unfold get in Ht. rewrite Ht.
  destruct (dict_get "message" d) as [[| | | | |m]|] eqn:Hm;
    try (run_cases; eauto; fail).
  pose proof (Hno m eq_refl) as Hn.
  run_cases; eauto.
  all: match goal with
       | H : getitem0 _ = Raise _ |- _ =>
           apply getitem0_raises in H; eauto
       end.
Qed.

(** C4, as amended. Whenever the message of the raw node can be read,
    normalization returns, with the explicit [id] as node id when that
    value is truthy and the [id] of the nested message otherwise, the case
    of every node that has no [id] key. When the explicit id is absent or
    falsy and no nested message carries an id, normalization raises
    ([KeyError], [TypeError] or [IndexError]); and when the message cannot
    be read it raises whatever the ids are. *)
Theorem simplify_id_resolution (d : dict) :
  (forall msg, message_of d = Ok msg ->
     (truthy (get d "id") = true ->
      Node.simplify (VDict d) =
        Ok [("id", get d "id"); ("message", msg); ("parent", get d "parent");
            ("children",
             if truthy (get d "children") then get d "children"
             else VList [])]) /\
     (forall m mid,
        truthy (get d "id") = false ->
        dict_get "message" d = Some (VDict m) ->
        dict_get "id" m = Some mid ->
        Node.simplify (VDict d) =
          Ok [("id", mid); ("message", msg); ("parent", get d "parent");
              ("children",
               if truthy (get d "children") then get d "children"
               else VList [])])) /\
  (truthy (get d "id") = false ->
   (forall m, dict_get "message" d = Some (VDict m) -> dict_get "id" m = None) ->
   exists e, Node.simplify (VDict d) = Raise e /\
             (e = KeyError \/ e = TypeError \/ e = IndexError)) /\
  (forall e, message_of d = Raise e -> Node.simplify (VDict d) = Raise e).
Proof.
  split; [|split].
  - intros msg Hmsg. split.
    + by apply simplify_explicit_id.
    + intros m mid. by apply simplify_message_id.
  - apply simplify_no_id.
  - apply simplify_no_message.
Qed.

(** The amended rule on four concrete nodes: a node as the server sends
    it, without an [id] key, gets the id of its message; a truthy explicit
    id is kept; a node with neither id fails; and so does a node whose
    nested message has no content, although it has both ids. *)
Lemma simplify_id_resolution_witness :
  Node.simplify (VDict raw_frame) =
    Ok [("id", VStr "a"); ("message", VStr "hi"); ("parent", VNone);
        ("children", VList [])] /\
  Node.simplify (VDict raw_question) =
    Ok [("id", VStr "q"); ("message", VStr "hello"); ("parent", VStr "r");
        ("children", VList [VStr "a"])] /\
  (exists e, Node.simplify (VDict [("message", VStr "hello")]) = Raise e /\
             (e = KeyError \/ e = TypeError \/ e = IndexError)) /\
  Node.simplify (VDict [("id", VStr "n"); ("message", VDict [("id", VStr "m")])])
    = Raise KeyError.
Proof.
  split; [|split; [|split]].
  - exact (proj2 (proj1 (simplify_id_resolution raw_frame) (VStr "hi") eq_refl)
             [("id", VStr "a");
              ("content", VDict [("parts", VList [VStr "hi"])])]
             (VStr "a") eq_refl eq_refl eq_refl).
  - exact (proj1 (proj1 (simplify_id_resolution raw_question) (VStr "hello")
                    eq_refl) eq_refl).
  - apply (proj1 (proj2 (simplify_id_resolution [("message", VStr "hello")])));
      [reflexivity | intros m H; discriminate H].
  - exact (proj2 (proj2 (simplify_id_resolution
                           [("id", VStr "n");
                            ("message", VDict [("id", VStr "m")])]))
             KeyError eq_refl).
Defined.

(** C4 as stated fails: the [id] key is present (with the empty string as
    its value), and the resolved id is the nested message's. *)
Lemma simplify_present_id_not_used :
  Reference.resolve_id_by_presence raw_empty_id = Ok (VStr "") /\
  Node.simplify (VDict raw_empty_id) =
    Ok [("id", VStr "m"); ("message", VStr "hi"); ("parent", VNone);
        ("children", VList [])].
Proof. split; reflexivity. Qed.

(** C5, as amended. On every raw node whose id resolves (a truthy [id],
    or a nested message that carries one) normalization returns, and then
    its [message] is the first element of [raw.message.content.parts] for
    a nested message that has one and [raw.message] itself, [None]
    included, for any other message, and its [children] is the raw value
    when that is truthy and the empty list when it is absent or falsy. On
    every other raw node it raises: when the id does not resolve, and when
    the nested message has no first content part. *)
Theorem simplify_message_children (d : dict) :
  ((truthy (get d "id") = true \/
    exists m mid,
      dict_get "message" d = Some (VDict m) /\ dict_get "id" m = Some mid) ->
   match get d "message" with
   | VDict m =>
       forall c parts text,
         dict_get "content" m = Some (VDict c) ->
         dict_get "parts" c = Some parts ->
         getitem0 parts = Ok text ->
         exists r,
           Node.simplify (VDict d) = Ok r /\
           dict_get "message" r = Some text /\
           dict_get "children" r =
             Some (if truthy (get d "children") then get d "children"
                   else VList [])
   | v =>
       exists r,
         Node.simplify (VDict d) = Ok r /\
         dict_get "message" r = Some v /\
         dict_get "children" r =
           Some (if truthy (get d "children") then get d "children"
                 else VList [])
   end) /\
  (truthy (get d "id") = false ->
   (forall m, dict_get "message" d = Some (VDict m) -> dict_get "id" m = None) ->
   exists e, Node.simplify (VDict d) = Raise e /\
             (e = KeyError \/ e = TypeError \/ e = IndexError)) /\
  (forall e, message_of d = Raise e -> Node.simplify (VDict d) = Raise e).
Proof.
  split; [|split]; [|apply simplify_no_id|apply simplify_no_message].
  intros Hid.
  assert (forall msg, message_of d = Ok msg ->
            exists r, Node.simplify (VDict d) = Ok r /\
                      dict_get "message" r = Some msg /\
                      dict_get "children" r =
                        Some (if truthy (get d "children")
                              then get d "children" else VList [])) as Hret.
  { intros msg Hmsg. destruct (truthy (get d "id")) eqn:Ht.
    - eexists. split; [by apply simplify_explicit_id|]. split; reflexivity.
    - destruct Hid as [Hid|(m & mid & Hm & Hmid)]; [discriminate Hid|].
      eexists. split; [by eapply simplify_message_id|]. split; reflexivity. }
  unfold message_of in Hret.
  destruct (get d "message") as [| | | | |m] eqn:Hg; try (by apply Hret).
  intros c parts text Hc Hp Ht. apply Hret.
  cbn [getitem]. rewrite Hc. cbn [mbind result_bind]. unfold getitem.
  rewrite Hp. cbn [mbind result_bind]. exact Ht.
Qed.

(** The amended rule on three concrete nodes: a plain message with
    children and an explicit id, a nested message without children whose
    id is the message's, and a node whose id does not resolve. *)
Lemma simplify_message_children_witness :
  (exists r,
     Node.simplify (VDict raw_question) = Ok r /\
     dict_get "message" r = Some (VStr "hello") /\
     dict_get "children" r = Some (VList [VStr "a"])) /\
  (exists r,
     Node.simplify (VDict raw_frame) = Ok r /\
     dict_get "message" r = Some (VStr "hi") /\
     dict_get "children" r = Some (VList [])) /\
  (exists e, Node.simplify (VDict [("message", VNone)]) = Raise e /\
             (e = KeyError \/ e = TypeError \/ e = IndexError)).
Proof.
  split; [|split].
  - exact (proj1 (simplify_message_children raw_question) (or_introl eq_refl)).
  - apply (proj1 (simplify_message_children raw_frame)
             (or_intror
                (ex_intro _ [("id", VStr "a");
                             ("content", VDict [("parts", VList [VStr "hi"])])]
                   (ex_intro _ (VStr "a") (conj eq_refl eq_refl))))
             [("parts", VList [VStr "hi"])] (VList [VStr "hi"]) (VStr "hi"));
      reflexivity.
  - apply (proj1 (proj2 (simplify_message_children [("message", VNone)])));
      [reflexivity | intros m H; discriminate H].
Defined.

(** C5 as stated fails: for the raw node [{'message': None}] the
    specification's rule gives the message [None] and no children, and
    normalization gives nothing: it raises [TypeError] at the id. *)
Lemma simplify_none_message_raises :
  Reference.message_and_children [("message", VNone)] = Ok (VNone, VList []) /\
  Node.simplify (VDict [("message", VNone)]) = Raise TypeError.
Proof. split; reflexivity. Qed.



End NodeSpec.

(** ** [ask]: failures, pointers and the size of the store *)

Module AskSpec.
Import Examples.

Lemma dict_get_set_eq (k : string) (v : value) (d : dict) :
  dict_get k (dict_set k v d) = Some v.
Proof.
  induction d as [|[k' v'] d IH]; cbn.
  - by rewrite String.eqb_refl.
  - destruct (String.eqb k k') eqn:E; cbn; rewrite ?String.eqb_refl, ?E; done.
Qed.

Lemma dict_get_set_ne (k k' : string) (v : value) (d : dict) :
  k ≠ k' -> dict_get k (dict_set k' v d) = dict_get k d.
Proof.
  intros Hne. induction d as [|[k0 v0] d IH]; cbn.
  - destruct (String.eqb_spec k k'); done.
  - destruct (String.eqb_spec k' k0) as [->|]; cbn.
    + destruct (String.eqb_spec k k0); done.
    + destruct (String.eqb_spec k k0); done.
Qed.

(** What a successful [Node(node, name, depth)] holds. *)
Lemma init_ok (v : value) (name : string) (depth : Z) (n : Node.t) :
  Node.init v name depth = Ok n ->
  exists d i m,
    v = VDict d /\
    Node.parent n = get d "parent" /\
    Node.children n =
      (if truthy (get d "children") then get d "children" else VList []) /\
    Node.node_id n = i /\ Node.message n = m /\
    Node.name n = name /\
    Node.node n = [("id", i); ("message", m); ("parent", Node.parent n);
                   ("children", Node.children n)].
Proof.
  unfold Node.init, Node.simplify, py_get. intros H.
  destruct v as [| | | | |d]; try discriminate H.
  exists d.
  repeat first [ progress unfold mret, mbind, result_ret, result_bind in *
               | progress cbn [dict_get String.eqb Ascii.eqb Bool.eqb getitem] in *
               | progress simplify_eq
               | case_match ];
    eexists _, _; repeat split.
Qed.

(** The node [ask] synthesizes for a question. *)
Lemma init_question (u message : string) (a p : value) name depth (n : Node.t) :
  Node.init (VDict [("id", VStr u); ("message", VStr message);
                    ("children", VList [a]); ("parent", p)]) name depth = Ok n ->
  Node.node_id n = VStr u /\ Node.children n = VList [a] /\ Node.parent n = p /\
  Node.message n = VStr message.
Proof.
  destruct u as [|c u]; [discriminate|].
  cbn. unfold mret, result_ret. intros H. simplify_eq. done.
Qed.

Lemma hash_raise (v : value) (e : exn) : hash v = Raise e -> e = TypeError.
Proof. destruct v; cbn; congruence. Qed.

Lemma init_parent_set (v : value) (p : value) name depth (v' : value) (n : Node.t) :
  setitem v "parent" p = Ok v' ->
  Node.init v' name depth = Ok n ->
  Node.parent n = p.
Proof.
  intros Hs Hn. destruct v as [| | | | |d]; try discriminate Hs.
  cbn in Hs. simplify_eq.
  destruct (init_ok _ _ _ _ Hn) as (d' & i & m & Hd & Hp & _). simplify_eq.
  rewrite Hp. unfold get. by rewrite dict_get_set_eq.
Qed.

Lemma getitem_set_ne (v v' x : value) (k k' : string) :
  k ≠ k' -> setitem v k' x = Ok v' -> getitem v' k = getitem v k.
Proof.
  intros Hne Hs. destruct v as [| | | | |d]; try discriminate Hs.
  cbn in Hs. simplify_eq. cbn. by rewrite dict_get_set_ne.
Qed.

(** The dict display of the first [ask], key by key. *)
Lemma dict_literal_four (k1 k2 k3 k4 : value) (n1 n2 n3 n4 : Node.t) m :
  WebChat.dict_literal ∅ [(k1, n1); (k2, n2); (k3, n3); (k4, n4)] = Ok m ->
  exists h1 h2 h3 h4,
    hash k1 = Ok h1 /\ hash k2 = Ok h2 /\ hash k3 = Ok h3 /\ hash k4 = Ok h4 /\
    m = <[h4:=n4]> (<[h3:=n3]> (<[h2:=n2]> (<[h1:=n1]> ∅))).
Proof.
  cbn. unfold mbind, result_bind. intros H.
  repeat case_match; simplify_eq. eauto 10.
Qed.

Lemma init_well_formed (v : value) name depth (n : Node.t) :
  Node.init v name depth = Ok n -> Trace.well_formed n.
Proof.
  intros H. destruct (init_ok _ _ _ _ H) as (d & i & m & _ & _ & _ & <- & <- & _ & E).
  exact E.
Qed.

(** The node [ask] synthesizes for the anchor of the tree. *)
Lemma init_tree (u : string) (a : value) name depth (n : Node.t) :
  Node.init (VDict [("id", VStr u); ("message", VNone);
                    ("children", VList [a]); ("parent", VNone)]) name depth = Ok n ->
  Node.node_id n = VStr u /\ Node.parent n = VNone.
Proof.
  destruct u as [|c u]; [discriminate|].
  cbn. unfold mret, result_ret. intros H. simplify_eq. done.
Qed.

Ltac ask_unfold H :=
  unfold WebChat.ask, WebChat.mapping_getitem, WebChat.mapping_setitem,
    WebChat.raise in H;
  unfold mbind, mret, WebChat.M_bind, WebChat.M_ret, WebChat.self,
    WebChat.lift, WebChat.assign in H;
  cbn beta iota in H.

(** A first [ask] that returns: the four nodes and the new session. *)
Lemma ask_first_ok c u1 u2 message keep s ans s' :
  WebChat.chat_id s = VNone ->
  WebChat.ask c u1 u2 message keep s = (Ok ans, s') ->
  exists root_resp ans_resp treen rootn ansn quen cid kr ka,
    c = Ok (root_resp, ans_resp) /\
    getitem ans_resp "conversation_id" = Ok cid /\
    Node.parent ansn = VStr u2 /\
    Node.node_id quen = VStr u2 /\
    Node.children quen = VList [Node.node_id ansn] /\
    hash (Node.node_id rootn) = Ok kr /\
    hash (Node.node_id ansn) = Ok ka /\
    ans = Node.message ansn /\
    s' = WebChat.mk (WebChat._base_url s) (WebChat._access_token s)
           (WebChat.backend_url s) cid (Node.node_id ansn)
           (Node.node_id rootn) (VStr u1) (VStr u2)
           (<[KStr u2:=quen]>
              (<[ka:=ansn]> (<[kr:=rootn]> (<[KStr u1:=treen]> ∅)))) /\
    Node.node_id treen = VStr u1 /\
    Node.parent treen = VNone /\
    Node.parent rootn = VStr u1 /\
    Node.parent quen = Node.node_id rootn /\
    Trace.well_formed treen /\ Trace.well_formed rootn /\
    Trace.well_formed ansn /\ Trace.well_formed quen.
Proof.
  intros Hc H. ask_unfold H. rewrite Hc in H.
  destruct c as [[root_resp ans_resp]|e]; [|discriminate].
  destruct (setitem root_resp "children" _) as [r1|] eqn:Hr1; [|discriminate].
  destruct (setitem r1 "parent" _) as [r2|] eqn:Hr2; [|discriminate].
  destruct (setitem ans_resp "children" _) as [a1|] eqn:Ha1; [|discriminate].
  destruct (setitem a1 "parent" _) as [a2|] eqn:Ha2; [|discriminate].
  destruct (Node.init r2 _ _) as [rootn|] eqn:Hroot; [|discriminate].
  destruct (Node.init (VDict (("id", VStr u1) :: _)) _ _) as [treen|] eqn:Htree;
    [|discriminate].
  destruct (Node.init a2 _ _) as [ansn|] eqn:Hans; [|discriminate].
  destruct (Node.init (VDict (("id", VStr u2) :: _)) _ _) as [quen|] eqn:Hque;
    [|discriminate].
  destruct (getitem a2 "conversation_id") as [cid|] eqn:Hcid; [|discriminate].
  destruct (WebChat.dict_literal _ _) as [m|] eqn:Hm; [|discriminate].
  simplify_eq.
  destruct (init_question _ _ _ _ _ _ _ Hque) as (Hq & Hqc & Hqp & _).
  destruct (init_tree _ _ _ _ _ Htree) as (Ht & Htp).
  pose proof (init_parent_set _ _ _ _ _ _ Hr2 Hroot) as Hrp.
  pose proof (init_well_formed _ _ _ _ Htree) as Hwt.
  pose proof (init_well_formed _ _ _ _ Hroot) as Hwr.
  pose proof (init_well_formed _ _ _ _ Hans) as Hwa.
  pose proof (init_well_formed _ _ _ _ Hque) as Hwq.
  destruct (dict_literal_four _ _ _ _ _ _ _ _ _ Hm)
    as (h1 & h2 & h3 & h4 & E1 & E2 & E3 & E4 & ->).
  rewrite Hq in E4. cbn in E1, E4. simplify_eq.
  exists root_resp, ans_resp, treen, rootn, ansn, quen, cid, h2, h3.
  split; [reflexivity|]. split.
  { rewrite <- Hcid.
    rewrite (getitem_set_ne a1 a2 (VStr u2) "conversation_id" "parent")
      by (discriminate || assumption).
    symmetry.
    apply (getitem_set_ne ans_resp a1 (VList []) "conversation_id" "children");
      [discriminate | assumption]. }
  split; [exact (init_parent_set _ _ _ _ _ _ Ha2 Hans)|].
  rewrite Hq. repeat split; assumption.
Qed.

Ltac step H :=
  cbv beta iota in H;
  match type of H with
  | context [match ?X with _ => _ end] =>
      lazymatch X with
      | context [match _ with _ => _ end] => fail
      | _ => destruct X eqn:?; cbv beta iota in H; try discriminate H
      end
  end.

(** A later [ask] that returns: the two nodes and the new session. *)
Lemma ask_next_ok c u1 u2 message keep s ans s' :
  WebChat.chat_id s <> VNone ->
  WebChat.ask c u1 u2 message keep s = (Ok ans, s') ->
  exists ansn quen h prev prev' ka,
    s' = WebChat.mk (WebChat._base_url s) (WebChat._access_token s)
           (WebChat.backend_url s) (WebChat._chat_id s) (Node.node_id ansn)
           (WebChat._root_id s) (WebChat._tree_id s) (VStr u1)
           (<[KStr u1:=quen]> (<[ka:=ansn]> (<[h:=prev']> (WebChat._mapping s)))) /\
    ans = Node.message ansn /\
    hash (WebChat.node_id s) = Ok h /\
    WebChat._mapping s !! h = Some prev /\
    Node.children_append prev (VStr u1) = Ok prev' /\
    hash (Node.node_id ansn) = Ok ka /\
    Node.parent ansn = VStr u1 /\
    Node.node_id quen = VStr u1 /\
    Node.children quen = VList [Node.node_id ansn] /\
    Node.parent quen = WebChat.node_id s /\
    Node.message quen = VStr message /\
    Trace.well_formed ansn /\ Trace.well_formed quen.
Proof.
  intros Hc H. ask_unfold H.
  destruct (WebChat.chat_id s) eqn:Hcs; [congruence|..];
    (destruct c as [[root_resp ans_resp]|e]; [|discriminate H];
     destruct (setitem ans_resp "parent" (VStr u1)) as [a2|] eqn:Ha2;
       [|discriminate H];
     destruct (Node.init a2 "" 0) as [ansn|] eqn:Hans; [|discriminate H];
     destruct (Node.init (VDict _) "" 0) as [quen|] eqn:Hque; [|discriminate H];
     destruct (init_question _ _ _ _ _ _ _ Hque) as (Hq & Hqc & Hqp & Hqm);
     pose proof (init_well_formed _ _ _ _ Hans) as Hwa;
     pose proof (init_well_formed _ _ _ _ Hque) as Hwq;
     rewrite Hq in H; cbn [hash] in H;
     repeat step H;
     injection H as <- <-;
     do 6 eexists; split; [destruct s; reflexivity|];
     repeat split; try eassumption;
     exact (init_parent_set _ _ _ _ _ _ Ha2 Hans)).
Qed.

Lemma dict_literal_raise (u1 u2 : string) (k2 k3 : value) (n1 n2 n3 n4 : Node.t) e :
  WebChat.dict_literal ∅ [(VStr u1, n1); (k2, n2); (k3, n3); (VStr u2, n4)]
    = Raise e ->
  e = TypeError /\ (hash k2 = Raise TypeError \/ hash k3 = Raise TypeError).
Proof.
  cbn. unfold mbind, result_bind.
  destruct (hash k2) as [h2|e2] eqn:E2.
  - destruct (hash k3) as [h3|e3] eqn:E3; [discriminate|].
    intros H; simplify_eq. pose proof (hash_raise _ _ E3) as ->. auto.
  - intros H; simplify_eq. pose proof (hash_raise _ _ E2) as ->. auto.
Qed.

(** An [ask] that raises: either nothing was assigned, or the raise is the
    [TypeError] of an unhashable node id met after the pointers were
    assigned. *)
Lemma ask_raise c u1 u2 message keep s e s' :
  WebChat.ask c u1 u2 message keep s = (Raise e, s') ->
  s' = s \/
  (e = TypeError /\ (exists p, c = Ok p) /\
   (hash (WebChat.node_id s') = Raise TypeError \/
    hash (WebChat.root_id s') = Raise TypeError)).
Proof.
  intros H. ask_unfold H.
  destruct (WebChat.chat_id s) eqn:Hcs.
  { destruct c as [[root_resp ans_resp]|e0]; [|left; congruence].
    destruct (setitem root_resp "children" _) as [r1|] eqn:Hr1; [|left; congruence].
    destruct (setitem r1 "parent" _) as [r2|] eqn:Hr2; [|left; congruence].
    destruct (setitem ans_resp "children" _) as [a1|] eqn:Ha1; [|left; congruence].
    destruct (setitem a1 "parent" _) as [a2|] eqn:Ha2; [|left; congruence].
    destruct (Node.init r2 _ _) as [rootn|] eqn:Hroot; [|left; congruence].
    destruct (Node.init (VDict (("id", VStr u1) :: _)) _ _) as [treen|] eqn:Htree;
      [|left; congruence].
    destruct (Node.init a2 _ _) as [ansn|] eqn:Hans; [|left; congruence].
    destruct (Node.init (VDict (("id", VStr u2) :: _)) _ _) as [quen|] eqn:Hque;
      [|left; congruence].
    destruct (getitem a2 "conversation_id") as [cid|] eqn:Hcid; [|left; congruence].
    destruct (WebChat.dict_literal _ _) as [m|e1] eqn:Hm; [discriminate|].
    destruct (init_question _ _ _ _ _ _ _ Hque) as (Hq & _).
    rewrite Hq in Hm. apply dict_literal_raise in Hm as [-> Hm].
    injection H as <- <-. right. split; [reflexivity|]. split; [eauto|].
    cbn. tauto. }
  all: destruct c as [[root_resp ans_resp]|e0]; [|left; congruence];
    destruct (setitem ans_resp "parent" (VStr u1)) as [a2|] eqn:Ha2;
      [|left; congruence];
    destruct (Node.init a2 "" 0) as [ansn|] eqn:Hans; [|left; congruence];
    destruct (Node.init (VDict _) "" 0) as [quen|] eqn:Hque; [|left; congruence];
    destruct (init_question _ _ _ _ _ _ _ Hque) as (Hq & _);
    rewrite Hq in H; cbn [hash] in H; cbv beta iota in H;
    destruct (hash (WebChat.node_id s)) as [h|] eqn:Hh; cbv beta iota in H;
      [|left; congruence];
    destruct (WebChat._mapping s !! h) as [prev|] eqn:Hprev; cbv beta iota in H;
      [|left; congruence];
    destruct (Node.children_append prev (VStr u1)) as [prev'|] eqn:Happ;
      cbv beta iota in H; [|left; congruence];
    destruct (hash (Node.node_id ansn)) as [ka|e1] eqn:Hka; cbv beta iota in H;
      [discriminate H|];
    injection H as <- <-; right; pose proof (hash_raise _ _ Hka) as ->;
    split; [reflexivity|]; split; [eauto|]; left; exact Hka.
Qed.

(** X1. When the completion call fails, [ask] raises the
    exception the call raised and the session is as it was. Whenever [ask]
    raises, the session is as it was, with one exception: a payload whose
    node id is unhashable makes [ask] raise [TypeError] after the pointers
    were assigned, and the pointer [node_id] or [root_id] then holds that
    unhashable id. *)
Theorem ask_failure_state c u1 u2 message keep s :
  (forall e0, c = Raise e0 ->
     WebChat.ask c u1 u2 message keep s = (Raise e0, s)) /\
  (forall e s', WebChat.ask c u1 u2 message keep s = (Raise e, s') ->
     s' = s \/
     (e = TypeError /\ (exists p, c = Ok p) /\
      (hash (WebChat.node_id s') = Raise TypeError \/
       hash (WebChat.root_id s') = Raise TypeError))).
Proof.
  split.
  - intros e0 ->. unfold WebChat.ask.
    unfold mbind, mret, WebChat.M_bind, WebChat.M_ret, WebChat.self, WebChat.lift.
    cbn beta iota. by destruct (WebChat.chat_id s).
  - intros e s' H. by apply ask_raise in H.
Qed.

Lemma ask_failure_state_witness :
  Trace.ask list_id_call fresh = (Raise TypeError, (Trace.ask list_id_call fresh).2) /\
  ((Trace.ask list_id_call fresh).2 = fresh \/
   (TypeError = TypeError /\
    (exists p, Trace.completion list_id_call = Ok p) /\
    (hash (WebChat.node_id (Trace.ask list_id_call fresh).2) = Raise TypeError \/
     hash (WebChat.root_id (Trace.ask list_id_call fresh).2) = Raise TypeError))).
Proof.
  split; [reflexivity|].
  apply (ask_failure_state (Trace.completion list_id_call) "t" "q" "hello" true fresh).
  reflexivity.
Defined.

(** On a new session, a first frame whose message id is a list makes
    [ask] raise [TypeError] once the conversation id and the four pointers
    have been assigned: the session is no longer as it was, and its store
    is still empty. *)
Lemma ask_partial_update :
  Trace.ask list_id_call fresh =
    (Raise TypeError,
     WebChat.mk (Some "https://host") (Some "token") "https://host/backend-api"
                (VStr "c") (VStr "a") (VList [VStr "r"]) (VStr "t") (VStr "q") ∅) /\
  (Trace.ask list_id_call fresh).2 <> fresh.
Proof. split; [reflexivity|]. intros H. discriminate H. Qed.

Lemma chat_id_cases (s : WebChat.t) :
  WebChat.chat_id s = VNone \/ WebChat.chat_id s <> VNone.
Proof. destruct (WebChat.chat_id s); (by left) || (by right). Qed.

(** X2. After an [ask] that returns, both pointers are keys of the store;
    the node stored under [_que_id] is the question, whose only child is
    the current answer id; and unless the answer came back under the very
    id of the question, the node stored under [node_id] is the answer and
    its parent is the question id. *)
Theorem ask_pointers c u1 u2 message keep s ans s' :
  WebChat.ask c u1 u2 message keep s = (Ok ans, s') ->
  exists kq ka quen,
    hash (WebChat._que_id s') = Ok kq /\
    hash (WebChat.node_id s') = Ok ka /\
    WebChat._mapping s' !! kq = Some quen /\
    is_Some (WebChat._mapping s' !! ka) /\
    Node.node_id quen = WebChat._que_id s' /\
    Node.children quen = VList [WebChat.node_id s'] /\
    (ka <> kq ->
     exists ansn, WebChat._mapping s' !! ka = Some ansn /\
                  Node.message ansn = ans /\
                  Node.parent ansn = WebChat._que_id s').
Proof.
  intros H. destruct (chat_id_cases s) as [Hc|Hc].
  - destruct (ask_first_ok _ _ _ _ _ _ _ _ Hc H)
      as (root_resp & ans_resp & treen & rootn & ansn & quen & cid & kr & ka
          & _ & _ & Hp & Hq & Hqc & _ & Hka & -> & -> & _).
    exists (KStr u2), ka, quen. cbn.
    split; [done|]. split; [done|]. split; [by rewrite lookup_insert_eq|].
    split.
    { rewrite lookup_insert_is_Some'. right.
      rewrite lookup_insert_eq. by eexists. }
    split; [done|]. split; [done|].
    intros Hne. exists ansn.
    rewrite lookup_insert_ne by done. by rewrite lookup_insert_eq.
  - destruct (ask_next_ok _ _ _ _ _ _ _ _ Hc H)
      as (ansn & quen & h & prev & prev' & ka
          & -> & -> & _ & _ & _ & Hka & Hp & Hq & Hqc & _).
    exists (KStr u1), ka, quen. cbn.
    split; [done|]. split; [done|]. split; [by rewrite lookup_insert_eq|].
    split.
    { rewrite lookup_insert_is_Some'. right.
      rewrite lookup_insert_eq. by eexists. }
    split; [done|]. split; [done|].
    intros Hne. exists ansn.
    rewrite lookup_insert_ne by done. by rewrite lookup_insert_eq.
Qed.

Lemma ask_pointers_witness :
  exists kq ka quen,
    hash (WebChat._que_id after_first) = Ok kq /\
    hash (WebChat.node_id after_first) = Ok ka /\
    WebChat._mapping after_first !! kq = Some quen /\
    is_Some (WebChat._mapping after_first !! ka) /\
    Node.node_id quen = WebChat._que_id after_first /\
    Node.children quen = VList [WebChat.node_id after_first] /\
    (ka <> kq ->
     exists ansn, WebChat._mapping after_first !! ka = Some ansn /\
                  Node.message ansn = VStr "hi" /\
                  Node.parent ansn = WebChat._que_id after_first).
Proof.
  apply (ask_pointers (Trace.completion first_call) "t" "q" "hello" true fresh).
  reflexivity.
Defined.

(** When the answer comes back under the id the question was sent with,
    the node stored under [node_id] is the question: its parent is the
    root, not [_que_id]. *)
Lemma ask_echoed_id :
  (Trace.ask echoed_id_call fresh).1 = Ok (VStr "hi") /\
  WebChat.node_id (Trace.ask echoed_id_call fresh).2 = VStr "q" /\
  WebChat._que_id (Trace.ask echoed_id_call fresh).2 = VStr "q" /\
  Node.parent <$> WebChat._mapping (Trace.ask echoed_id_call fresh).2 !! KStr "q"
    = Some (VStr "r").
Proof. repeat split; vm_compute; reflexivity. Qed.

Lemma first_ask_size c u1 u2 message keep s ans s1 :
  WebChat.chat_id s = VNone ->
  WebChat.ask c u1 u2 message keep s = (Ok ans, s1) ->
  Trace.keys_fresh (Trace.store_before s) (Trace.new_ids s s1) = true ->
  size (WebChat._mapping s1) = 4%nat /\
  exists root_resp ans_resp,
    c = Ok (root_resp, ans_resp) /\
    getitem ans_resp "conversation_id" = Ok (WebChat.chat_id s1).
Proof.
  intros Hc H Hfresh.
  destruct (ask_first_ok _ _ _ _ _ _ _ _ Hc H)
    as (root_resp & ans_resp & treen & rootn & ansn & quen & cid & kr & ka
        & -> & Hcid & _ & _ & _ & Hkr & Hka & _ & -> & _).
  split; [|by exists root_resp, ans_resp].
  unfold Trace.keys_fresh, Trace.new_ids, Trace.store_before in Hfresh.
  rewrite Hc in Hfresh. cbn in Hfresh. rewrite Hkr, Hka in Hfresh.
  cbn in Hfresh. apply andb_prop in Hfresh as [Hnd _].
  apply bool_decide_eq_true in Hnd.
  apply NoDup_cons in Hnd as [H1 Hnd]. apply NoDup_cons in Hnd as [H2 Hnd].
  apply NoDup_cons in Hnd as [H3 _].
  repeat rewrite not_elem_of_cons in H1.
  repeat rewrite not_elem_of_cons in H2.
  repeat rewrite not_elem_of_cons in H3.
  destruct H1 as (? & ? & ? & _), H2 as (? & ? & _), H3 as (? & _).
  cbn. rewrite !map_size_insert_None, map_size_empty; [done|..];
    rewrite ?lookup_insert_None, ?lookup_empty; naive_solver.
Qed.

Lemma next_ask_size c u1 u2 message keep s ans s1 :
  WebChat.chat_id s <> VNone ->
  WebChat.ask c u1 u2 message keep s = (Ok ans, s1) ->
  Trace.keys_fresh (Trace.store_before s) (Trace.new_ids s s1) = true ->
  size (WebChat._mapping s1) = S (S (size (WebChat._mapping s))) /\
  WebChat.chat_id s1 = WebChat.chat_id s.
Proof.
  intros Hc H Hfresh.
  destruct (ask_next_ok _ _ _ _ _ _ _ _ Hc H)
    as (ansn & quen & h & prev & prev' & ka
        & -> & _ & _ & Hprev & _ & Hka & _).
  split; [|done].
  assert (Trace.keys_fresh (WebChat._mapping s) [Node.node_id ansn; VStr u1] = true)
    as Hf.
  { revert Hfresh. unfold Trace.store_before, Trace.new_ids.
    by destruct (WebChat.chat_id s). }
  clear Hfresh. unfold Trace.keys_fresh in Hf. cbn in Hf. rewrite Hka in Hf.
  cbn in Hf. apply andb_prop in Hf as [Hnd Hnone].
  apply bool_decide_eq_true in Hnd. apply NoDup_cons in Hnd as [H1 _].
  repeat rewrite not_elem_of_cons in H1. destruct H1 as [H1 _].
  apply andb_prop in Hnone as [Ha Hq]. apply andb_prop in Hq as [Hq _].
  apply bool_decide_eq_true in Ha, Hq.
  assert (h <> ka) as Hh1 by (intros ->; congruence).
  assert (h <> KStr u1) as Hh2 by (intros ->; congruence).
  cbn. rewrite map_size_insert_None.
  - rewrite map_size_insert_None.
    + by rewrite map_size_insert_Some.
    + by rewrite lookup_insert_None.
  - by rewrite !lookup_insert_None.
Qed.

Lemma asks_later cs s s' :
  Trace.asks cs s s' ->
  WebChat.chat_id s <> VNone ->
  size (WebChat._mapping s') = (size (WebChat._mapping s) + 2 * length cs)%nat /\
  WebChat.chat_id s' = WebChat.chat_id s.
Proof.
  induction 1 as [s|c cs s s1 s2 ans Hask Hfresh _ _ IH]; intros Hc.
  - cbn. split; [lia|done].
  - destruct (next_ask_size (Trace.completion c) (Trace.uuid1 c) (Trace.uuid2 c)
                (Trace.message c) (Trace.keep c) _ _ _ Hc Hask Hfresh) as [Hsz Hid].
    destruct IH as [IHsz IHid]; [congruence|].
    split; [cbn [length]; lia|congruence].
Qed.

(** X3. On a session that has no conversation yet, after [n >= 1] asks
    that all return, store their nodes under ids that are new and
    pairwise different, and of which the first is answered with a
    conversation id other than [null], the store holds [2n + 2] nodes, and
    the session's conversation id is the [conversation_id] of the first
    answer payload, not [None]. *)
Theorem store_size c cs s0 s :
  WebChat.chat_id s0 = VNone ->
  Trace.asks (c :: cs) s0 s ->
  size (WebChat._mapping s) = (2 * length (c :: cs) + 2)%nat /\
  WebChat.chat_id s <> VNone /\
  exists root_resp ans_resp,
    Trace.completion c = Ok (root_resp, ans_resp) /\
    getitem ans_resp "conversation_id" = Ok (WebChat.chat_id s).
Proof.
  intros Hc Hasks. inversion Hasks as [|c' cs' s' s1 s2 ans Hask Hfresh Hconv Hrest];
    subst.
  destruct (first_ask_size (Trace.completion c) (Trace.uuid1 c) (Trace.uuid2 c)
              (Trace.message c) (Trace.keep c) _ _ _ Hc Hask Hfresh)
    as (Hsz & root_resp & ans_resp & Hcompl & Hcid).
  assert (WebChat.chat_id s1 <> VNone) as Hc1.
  { specialize (Hconv Hc). unfold Trace.conversation_id_set in Hconv.
    rewrite Hcompl, Hcid in Hconv. intros E. by rewrite E in Hconv. }
  destruct (asks_later _ _ _ Hrest Hc1) as [Hsz' Hid].
  split; [cbn [length]; lia|]. split; [congruence|].
  exists root_resp, ans_resp. by rewrite Hid.
Qed.

Lemma store_size_witness :
  size (WebChat._mapping after_second) = (2 * length [first_call; second_call] + 2)%nat /\
  WebChat.chat_id after_second <> VNone /\
  exists root_resp ans_resp,
    Trace.completion first_call = Ok (root_resp, ans_resp) /\
    getitem ans_resp "conversation_id" = Ok (WebChat.chat_id after_second).
Proof.
  apply (store_size first_call [second_call] fresh after_second); [reflexivity|].
  apply (Trace.asks_cons _ _ _ after_first _ (VStr "hi"));
    [vm_compute; reflexivity | vm_compute; reflexivity | reflexivity |].
  apply (Trace.asks_cons _ _ _ after_second _ (VStr "fine"));
    [vm_compute; reflexivity | vm_compute; reflexivity | intros E; discriminate E |].
  apply Trace.asks_nil.
Defined.

(** Both frames of the completion carry the id of the message being
    streamed and no conversation id: the first [ask] stores three nodes
    and leaves the conversation id [None]. *)
Lemma ask_same_id :
  (Trace.ask same_id_call fresh).1 = Ok (VStr "hi") /\
  size (WebChat._mapping (Trace.ask same_id_call fresh).2) = 3%nat /\
  WebChat.chat_id (Trace.ask same_id_call fresh).2 = VNone.
Proof. repeat split; vm_compute; reflexivity. Qed.

End AskSpec.

(** ** C6, C8, C9: properties, setters and [goto] *)

Module SessionSpec.

Import Examples AskSpec.

Lemma init_fresh :
  WebChat.init None None None (Some "https://host") None (Some "token")
               None None = Ok fresh.
Proof. reflexivity. Qed.

Lemma init_fields db dk dt base backend token cid nid s :
  WebChat.init db dk dt base backend token cid nid = Ok s ->
  WebChat._base_url s = WebChat.str_or base db /\
  WebChat._chat_id s = WebChat.of_optional cid /\
  WebChat._node_id s = WebChat.of_optional nid /\
  WebChat._mapping s = ∅.
Proof.
  unfold WebChat.init. intros H.
  repeat first [ progress unfold mret, mbind, result_ret, result_bind in *
               | progress simplify_eq
               | case_match ]; done.
Qed.

(** What no [ask] assigns, whether it returns or raises: the base url and
    the access token, and the conversation id once there is one. *)
Lemma ask_fixed c u1 u2 message keep s r s' :
  WebChat.ask c u1 u2 message keep s = (r, s') ->
  WebChat._base_url s' = WebChat._base_url s /\
  WebChat._access_token s' = WebChat._access_token s /\
  (WebChat.chat_id s <> VNone -> WebChat._chat_id s' = WebChat._chat_id s).
Proof.
  intros H. ask_unfold H.
  destruct (WebChat.chat_id s) eqn:Hcs;
    repeat step H; simplify_eq; cbn; repeat split; congruence.
Qed.

Lemma apply_op_fixed (o : Trace.op) (s : WebChat.t) :
  WebChat._base_url (Trace.apply_op o s) = WebChat._base_url s /\
  WebChat._access_token (Trace.apply_op o s) = WebChat._access_token s /\
  (WebChat.chat_id s <> VNone ->
   WebChat._chat_id (Trace.apply_op o s) = WebChat._chat_id s).
Proof.
  destruct o as [c| | | | |]; try (repeat split; reflexivity).
  cbn [Trace.apply_op]. destruct c as [c u1 u2 message keep].
  unfold Trace.ask. cbn [Trace.completion Trace.uuid1 Trace.uuid2
                         Trace.message Trace.keep].
  destruct (WebChat.ask c u1 u2 message keep s) as [r s'] eqn:H.
  exact (ask_fixed _ _ _ _ _ _ _ _ H).
Qed.

Lemma run_fixed (ops : list Trace.op) (s : WebChat.t) :
  WebChat._base_url (Trace.run ops s) = WebChat._base_url s /\
  WebChat._access_token (Trace.run ops s) = WebChat._access_token s /\
  (WebChat.chat_id s <> VNone ->
   WebChat._chat_id (Trace.run ops s) = WebChat._chat_id s).
Proof.
  revert s. induction ops as [|o ops IH]; intros s; [done|].
  change (Trace.run (o :: ops) s) with (Trace.run ops (Trace.apply_op o s)).
  destruct (apply_op_fixed o s) as (Hb & Ht & Hc).
  destruct (IH (Trace.apply_op o s)) as (Hb' & Ht' & Hc').
  split; [congruence|]. split; [congruence|].
  intros Hs. specialize (Hc Hs). rewrite <- Hc. apply Hc'.
  unfold WebChat.chat_id in *. congruence.
Qed.

(** C6, as amended. On every session, whatever has been done with it,
    assigning to [chat_id], [access_token] or [node_id] raises
    [AttributeError] and leaves the session as it was. The [chat_id] of a
    session just constructed is what the constructor was given, [None]
    when it was given none; and whatever a caller does with a session
    ([ask], [goto], assignments), its access token stays the same, and so
    does its [chat_id] once it is not [None]. *)
Theorem guarded_attributes (s : WebChat.t) (v : value) :
  (WebChat.set_chat_id v s = (Raise AttributeError, s) /\
   WebChat.set_access_token v s = (Raise AttributeError, s) /\
   WebChat.set_node_id v s = (Raise AttributeError, s)) /\
  (forall db dk dt base backend token cid nid,
     WebChat.init db dk dt base backend token cid nid = Ok s ->
     WebChat.chat_id s = WebChat.of_optional cid) /\
  (forall ops,
     WebChat.access_token (Trace.run ops s) = WebChat.access_token s /\
     (WebChat.chat_id s <> VNone ->
      WebChat.chat_id (Trace.run ops s) = WebChat.chat_id s)).
Proof.
  split; [repeat split|]. split.
  - intros db dk dt base backend token cid nid H.
    by destruct (init_fields _ _ _ _ _ _ _ _ _ H) as (_ & Hc & _).
  - intros ops. destruct (run_fixed ops s) as (_ & Ht & Hc). by split.
Qed.

(** The rule on a session that has asked once and has the conversation id
    of the answer: the three assignments fail, and a second ask followed
    by an assignment to [chat_id] leaves the conversation id in place. On
    the session just constructed without one, it is [None]. *)
Lemma guarded_attributes_witness :
  (WebChat.set_chat_id (VStr "x") after_first = (Raise AttributeError, after_first) /\
   WebChat.set_access_token (VStr "x") after_first
     = (Raise AttributeError, after_first) /\
   WebChat.set_node_id (VStr "x") after_first = (Raise AttributeError, after_first)) /\
  WebChat.chat_id fresh = VNone /\
  WebChat.chat_id after_first = VStr "c" /\
  WebChat.chat_id
    (Trace.run [Trace.Ask second_call; Trace.SetChatId (VStr "x")] after_first)
  = WebChat.chat_id after_first.
Proof.
  split; [|split; [|split]].
  - exact (proj1 (guarded_attributes after_first (VStr "x"))).
  - exact (proj1 (proj2 (guarded_attributes fresh VNone))
             None None None (Some "https://host") None (Some "token") None None
             init_fresh).
  - vm_compute. reflexivity.
  - apply (proj2 (proj2 (guarded_attributes after_first VNone))
             [Trace.Ask second_call; Trace.SetChatId (VStr "x")]).
    vm_compute. discriminate.
Defined.

(** C6 as stated fails: a session constructed with a conversation id has
    that id, not [None], before any [ask]. *)
Lemma resumed_session_chat_id :
  match WebChat.init None None None (Some "https://host") None (Some "token")
                     (Some "c-1") None with
  | Ok s => WebChat.chat_id s = VStr "c-1" /\ WebChat.chat_id s <> VNone
  | Raise _ => False
  end.
Proof. cbn. split; [reflexivity | discriminate]. Qed.

(** C8: [goto] returns [None] and leaves the session as it is, whatever
    the node id: no check of the store, no check of the message, no
    assignment to [node_id]. *)
Theorem goto_does_nothing (s : WebChat.t) (node_id : value) :
  WebChat.goto node_id s = (Ok VNone, s).
Proof. reflexivity. Qed.

(** C9. On every session, whatever has been done with it, assigning [u]
    to [base_url] returns, sets [backend_url] to the join of [u] with
    [backend-api] and leaves the value of the [base_url] getter as it was:
    after the assignment the getter still gives the base url the
    constructor fixed, whatever the caller did in between ([ask], [goto],
    earlier assignments). *)
Theorem base_url_setter (s : WebChat.t) (u : string) :
  (exists s',
     WebChat.set_base_url u s = (Ok tt, s') /\
     WebChat.backend_url s' = os_path_join u "backend-api" /\
     WebChat.base_url s' = WebChat.base_url s) /\
  (forall db dk dt base backend token cid nid s0 ops,
     WebChat.init db dk dt base backend token cid nid = Ok s0 ->
     s = Trace.run ops s0 ->
     WebChat.base_url (WebChat.set_base_url u s).2 = WebChat.str_or base db).
Proof.
  split.
  - eexists. split; [reflexivity|]. split; reflexivity.
  - intros db dk dt base backend token cid nid s0 ops H ->.
    destruct (init_fields _ _ _ _ _ _ _ _ _ H) as (Hb & _).
    destruct (run_fixed ops s0) as (Hr & _).
    cbn. unfold WebChat.base_url. cbn. congruence.
Qed.

(** The assignment on a session that has asked once and had its
    [base_url] assigned before: the backend url follows the new value, the
    getter stays at the constructor's. *)
Lemma base_url_setter_witness :
  (exists s',
     WebChat.set_base_url "https://other/"
       (Trace.run [Trace.Ask first_call; Trace.SetBaseUrl "https://x"] fresh)
     = (Ok tt, s') /\
     WebChat.backend_url s' = "https://other/backend-api" /\
     WebChat.base_url s' =
       WebChat.base_url
         (Trace.run [Trace.Ask first_call; Trace.SetBaseUrl "https://x"] fresh)) /\
  WebChat.base_url
    (WebChat.set_base_url "https://other/"
       (Trace.run [Trace.Ask first_call; Trace.SetBaseUrl "https://x"] fresh)).2
  = Some "https://host".
Proof.
  split.
  - exact (proj1 (base_url_setter
                    (Trace.run [Trace.Ask first_call; Trace.SetBaseUrl "https://x"]
                       fresh) "https://other/")).
  - exact (proj2 (base_url_setter
                    (Trace.run [Trace.Ask first_call; Trace.SetBaseUrl "https://x"]
                       fresh) "https://other/")
             None None None (Some "https://host") None (Some "token") None None
             fresh [Trace.Ask first_call; Trace.SetBaseUrl "https://x"]
             init_fresh eq_refl).
Defined.

End SessionSpec.

(** ** [ask]: what it changes in the store *)

Module AskFrame.
Import Examples AskSpec.

Ltac ask_unfold_goal :=
  unfold WebChat.ask, WebChat.mapping_getitem, WebChat.mapping_setitem,
    WebChat.raise;
  unfold mbind, mret, WebChat.M_bind, WebChat.M_ret, WebChat.self,
    WebChat.lift, WebChat.assign;
  cbn beta iota.

(** X4. A session that has a conversation id but whose current node is
    not in the store (as every session constructed with a [chat_id]) cannot
    ask: every [ask] raises and leaves the session as it was; with a
    well-formed answer frame the exception is the [KeyError] of the store
    lookup. *)
Theorem ask_unknown_node c u1 u2 message keep s h :
  WebChat.chat_id s <> VNone ->
  hash (WebChat.node_id s) = Ok h ->
  WebChat._mapping s !! h = None ->
  exists e,
    WebChat.ask c u1 u2 message keep s = (Raise e, s) /\
    (u1 <> "" ->
     (exists r id part conv, c = Ok (r, frame id part conv)) ->
     e = KeyError).
Proof.
  intros Hc Hh Hm. ask_unfold_goal.
  destruct (WebChat.chat_id s) eqn:Hcs; [congruence|..].
  all: destruct c as [[r a]|e0];
    [|eexists; split; [reflexivity|intros _ (? & ? & ? & ? & ?); discriminate]].
  all: destruct (setitem a "parent" (VStr u1)) as [a2|e1] eqn:Ha2;
    [|eexists; split; [reflexivity|];
      intros _ (? & ? & ? & ? & E); injection E as -> ->; discriminate Ha2].
  all: destruct (Node.init a2 "" 0) as [ansn|e2] eqn:Hans;
    [|eexists; split; [reflexivity|];
      intros _ (? & ? & ? & ? & E); injection E as -> ->;
      cbn in Ha2; injection Ha2 as <-; discriminate Hans].
  all: destruct (Node.init (VDict _) "" 0) as [quen|e3] eqn:Hque;
    [|eexists; split; [reflexivity|];
      intros Hu _; destruct u1; [congruence|discriminate Hque]].
  all: cbv beta iota; rewrite Hh; cbv beta iota; rewrite Hm;
    eexists; split; [reflexivity|done].
Qed.

Lemma ask_unknown_node_witness :
  exists e,
    WebChat.ask (Trace.completion second_call) "q2" "unused" "how are you" true
                (WebChat.with_chat_id (VStr "c") fresh)
      = (Raise e, WebChat.with_chat_id (VStr "c") fresh) /\
    ("q2" <> "" ->
     (exists r id part conv,
        Trace.completion second_call = Ok (r, frame id part conv)) ->
     e = KeyError).
Proof.
  apply (ask_unknown_node _ _ _ _ _ (WebChat.with_chat_id (VStr "c") fresh) KNone);
    [intros E; discriminate E | reflexivity | reflexivity].
Defined.

Lemma children_append_ok (prev prev' : Node.t) (x : value) :
  Node.children_append prev x = Ok prev' ->
  exists l,
    Node.children prev = VList l /\
    Node.children prev' = VList (l ++ [x]) /\
    get (Node.node prev') "children" = VList (l ++ [x]) /\
    Node.node_id prev' = Node.node_id prev /\
    Node.parent prev' = Node.parent prev /\
    Node.message prev' = Node.message prev.
Proof.
  unfold Node.children_append. destruct (Node.children prev) as [| | | |l|] eqn:E;
    try discriminate.
  intros H. injection H as <-. exists l. cbn.
  unfold get. by rewrite dict_get_set_eq.
Qed.

(** X5. An [ask] on a session that has a conversation, when it returns,
    changes three entries of the store and no other: the question is
    stored under the new uuid with the former current node as parent and
    the text asked as message, the answer under its id, and the former
    current node, unless one of the two new ids is its own, has the
    question id appended to its children and is otherwise the same. The
    conversation id, the root id and the tree id stay. *)
Theorem ask_later_store c u1 u2 message keep s ans s' :
  WebChat.chat_id s <> VNone ->
  WebChat.ask c u1 u2 message keep s = (Ok ans, s') ->
  exists h ka prev l quen,
    hash (WebChat.node_id s) = Ok h /\
    hash (WebChat.node_id s') = Ok ka /\
    WebChat._que_id s' = VStr u1 /\
    WebChat._mapping s !! h = Some prev /\
    Node.children prev = VList l /\
    (forall k, k <> h -> k <> ka -> k <> KStr u1 ->
       WebChat._mapping s' !! k = WebChat._mapping s !! k) /\
    (h <> ka -> h <> KStr u1 ->
     exists prev',
       WebChat._mapping s' !! h = Some prev' /\
       Node.children prev' = VList (l ++ [VStr u1]) /\
       Node.node_id prev' = Node.node_id prev /\
       Node.parent prev' = Node.parent prev /\
       Node.message prev' = Node.message prev) /\
    WebChat._mapping s' !! KStr u1 = Some quen /\
    Node.parent quen = WebChat.node_id s /\
    Node.message quen = VStr message /\
    WebChat.chat_id s' = WebChat.chat_id s /\
    WebChat.root_id s' = WebChat.root_id s /\
    WebChat.tree_id s' = WebChat.tree_id s.
Proof.
  intros Hc H.
  destruct (ask_next_ok _ _ _ _ _ _ _ _ Hc H)
    as (ansn & quen & h & prev & prev' & ka
        & -> & _ & Hh & Hprev & Happ & Hka & _ & _ & _ & Hqp & Hqm & _).
  destruct (children_append_ok _ _ _ Happ) as (l & Hl & Hl' & _ & Hid & Hp & Hm).
  exists h, ka, prev, l, quen. cbn.
  split; [done|]. split; [done|]. split; [done|]. split; [done|].
  split; [done|]. split.
  { intros k ? ? ?. by rewrite !lookup_insert_ne. }
  split.
  { intros ? ?. exists prev'. rewrite !lookup_insert_ne by done.
    by rewrite lookup_insert_eq. }
  split; [by rewrite lookup_insert_eq|]. done.
Qed.

Lemma ask_later_store_witness :
  exists h ka prev l quen,
    hash (WebChat.node_id after_first) = Ok h /\
    hash (WebChat.node_id after_second) = Ok ka /\
    WebChat._que_id after_second = VStr "q2" /\
    WebChat._mapping after_first !! h = Some prev /\
    Node.children prev = VList l /\
    (forall k, k <> h -> k <> ka -> k <> KStr "q2" ->
       WebChat._mapping after_second !! k = WebChat._mapping after_first !! k) /\
    (h <> ka -> h <> KStr "q2" ->
     exists prev',
       WebChat._mapping after_second !! h = Some prev' /\
       Node.children prev' = VList (l ++ [VStr "q2"]) /\
       Node.node_id prev' = Node.node_id prev /\
       Node.parent prev' = Node.parent prev /\
       Node.message prev' = Node.message prev) /\
    WebChat._mapping after_second !! KStr "q2" = Some quen /\
    Node.parent quen = WebChat.node_id after_first /\
    Node.message quen = VStr "how are you" /\
    WebChat.chat_id after_second = WebChat.chat_id after_first /\
    WebChat.root_id after_second = WebChat.root_id after_first /\
    WebChat.tree_id after_second = WebChat.tree_id after_first.
Proof.
  apply (ask_later_store (Trace.completion second_call) "q2" "unused"
           "how are you" true after_first (VStr "fine") after_second).
  - intros E. discriminate E.
  - vm_compute. reflexivity.
Defined.

End AskFrame.

(** ** [Node]: round trip and failures *)

Module NodeRoundTrip.
Import Examples.

Lemma truthy_children (c : value) :
  let c' := if truthy c then c else VList [] in
  (if truthy c' then c' else VList []) = c'.
Proof. cbn. destruct (truthy c) eqn:E; [by rewrite E|done]. Qed.

(** X6. A node whose id is truthy and whose message is not a dict is
    rebuilt as it is from its own dict: [Node(n.node, n.name, n.depth)]
    equals [n], field by field. This is what lets [ask] pass dicts that
    are already in simplified shape to [Node]. *)
Theorem init_roundtrip (v : value) (name : string) (depth : Z) (n : Node.t) :
  Node.init v name depth = Ok n ->
  truthy (Node.node_id n) = true ->
  (forall d, Node.message n <> VDict d) ->
  Node.init (VDict (Node.node n)) name depth = Ok n.
Proof.
  unfold Node.init, Node.simplify, py_get. intros H.
  destruct v as [| | | | |d]; try discriminate H.
  unfold mret, mbind, result_ret, result_bind in H.
  destruct (match get d "message" with VDict _ => _ | _ => _ end)
    as [msg|] eqn:Hmsg; [|discriminate H].
  destruct (py_or (get d "id") _) as [i|] eqn:Hid; [|discriminate H].
  cbn in H. injection H as <-. cbn. intros Ht Hm.
  unfold mret, mbind, result_ret, result_bind, get. cbn.
  pose proof (truthy_children (get d "children")) as Hc. cbn in Hc.
  unfold get in Hc. rewrite Hc. unfold py_or. rewrite Ht.
  destruct msg; try reflexivity. by destruct (Hm d0).
Qed.

Lemma init_roundtrip_witness :
  Node.init (VDict (Node.node (Node.mk
      [("id", VStr "q"); ("message", VStr "hello"); ("parent", VStr "r");
       ("children", VList [VStr "a"])]
      (VStr "hello") (VStr "r") (VList [VStr "a"]) (VStr "q") "Q1" 0))) "Q1" 0
  = Ok (Node.mk
      [("id", VStr "q"); ("message", VStr "hello"); ("parent", VStr "r");
       ("children", VList [VStr "a"])]
      (VStr "hello") (VStr "r") (VList [VStr "a"]) (VStr "q") "Q1" 0).
Proof.
  apply (init_roundtrip (VDict raw_question) "Q1" 0); [reflexivity|reflexivity|].
  intros d E. discriminate E.
Defined.

Lemma getitem_raises (v : value) (k : string) (e : exn) :
  getitem v k = Raise e -> e = KeyError \/ e = TypeError.
Proof.
  destruct v as [| | | | |d]; cbn; intros H; simplify_eq; auto.
  destruct (dict_get k d); simplify_eq; auto.
Qed.

(** X7. The ways [Node(...)] fails. On a value that is not a dict it
    raises [AttributeError]. On a dict it can only fail with [KeyError],
    [TypeError] or [IndexError], and only when the message is itself a
    dict or the explicit id is falsy: a dict with a truthy id and a
    message that is not a dict always gives a node. *)
Theorem init_failure (v : value) (name : string) (depth : Z) (e : exn) :
  Node.init v name depth = Raise e ->
  match v with
  | VDict d =>
      (e = KeyError \/ e = TypeError \/ e = IndexError) /\
      ((exists m, get d "message" = VDict m) \/ truthy (get d "id") = false)
  | _ => e = AttributeError
  end.
Proof.
  unfold Node.init, Node.simplify, py_get. intros H.
  destruct v as [| | | | |d]; cbn in H; simplify_eq; try reflexivity.
  unfold mret, mbind, result_ret, result_bind in H.
  destruct (get d "message") as [| | | | |m] eqn:Hmsg.
  1-5: unfold py_or in H; destruct (truthy (get d "id")) eqn:Ht;
    [cbn in H; discriminate H|];
    split; [|by right]; unfold get in Hmsg; cbn [getitem] in H;
    destruct (dict_get "message" d) as [x|]; [subst x|];
    cbn in H; simplify_eq; auto.
  destruct (getitem (VDict m) "content") as [content|e1] eqn:Hc.
  2: { injection H as <-. split; [|by eauto].
       apply getitem_raises in Hc. tauto. }
  destruct (getitem content "parts") as [parts|e2] eqn:Hp.
  2: { injection H as <-. split; [|by eauto].
       apply getitem_raises in Hp. tauto. }
  destruct (getitem0 parts) as [part|e3] eqn:H0.
  2: { injection H as <-. split; [|by eauto].
       by apply NodeSpec.getitem0_raises in H0. }
  split; [|by eauto].
  unfold py_or in H. destruct (truthy (get d "id")); [cbn in H; discriminate H|].
  unfold get in Hmsg. cbn [getitem] in H.
  destruct (dict_get "message" d) as [x|]; [subst x|discriminate Hmsg].
  cbn in H. destruct (dict_get "id" m); cbn in H; simplify_eq; auto.
Qed.

Lemma init_failure_witness :
  (IndexError = KeyError \/ IndexError = TypeError \/ IndexError = IndexError) /\
  ((exists m, get [("id", VStr "x");
                   ("message", VDict [("content", VDict [("parts", VList [])])])]
                  "message" = VDict m) \/
   truthy (get [("id", VStr "x");
                ("message", VDict [("content", VDict [("parts", VList [])])])]
               "id") = false).
Proof.
  apply (init_failure
           (VDict [("id", VStr "x");
                   ("message", VDict [("content", VDict [("parts", VList [])])])])
           "" 0 IndexError).
  reflexivity.
Defined.

End NodeRoundTrip.

(** ** The store of every session a caller can hold *)

Module StoreInvariant.
Import Examples AskSpec.

(** An [ask] that raises leaves the store as it was, or has only appended
    an id to the children of the node that was current. *)
Lemma ask_raise_mapping c u1 u2 message keep s e s' :
  WebChat.ask c u1 u2 message keep s = (Raise e, s') ->
  WebChat._mapping s' = WebChat._mapping s \/
  exists h prev prev' x,
    WebChat._mapping s !! h = Some prev /\
    Node.children_append prev x = Ok prev' /\
    WebChat._mapping s' = <[h:=prev']> (WebChat._mapping s).
Proof.
  intros H. ask_unfold H.
  destruct (WebChat.chat_id s) eqn:Hcs.
  { destruct c as [[root_resp ans_resp]|e0]; [|left; congruence].
    destruct (setitem root_resp "children" _) as [r1|] eqn:Hr1; [|left; congruence].
    destruct (setitem r1 "parent" _) as [r2|] eqn:Hr2; [|left; congruence].
    destruct (setitem ans_resp "children" _) as [a1|] eqn:Ha1; [|left; congruence].
    destruct (setitem a1 "parent" _) as [a2|] eqn:Ha2; [|left; congruence].
    destruct (Node.init r2 _ _) as [rootn|] eqn:Hroot; [|left; congruence].
    destruct (Node.init (VDict (("id", VStr u1) :: _)) _ _) as [treen|] eqn:Htree;
      [|left; congruence].
    destruct (Node.init a2 _ _) as [ansn|] eqn:Hans; [|left; congruence].
    destruct (Node.init (VDict (("id", VStr u2) :: _)) _ _) as [quen|] eqn:Hque;
      [|left; congruence].
    destruct (getitem a2 "conversation_id") as [cid|] eqn:Hcid; [|left; congruence].
    destruct (WebChat.dict_literal _ _) as [m|e1] eqn:Hm; [discriminate|].
    injection H as <- <-. by left. }
  all: destruct c as [[root_resp ans_resp]|e0]; [|left; congruence];
    destruct (setitem ans_resp "parent" (VStr u1)) as [a2|] eqn:Ha2;
      [|left; congruence];
    destruct (Node.init a2 "" 0) as [ansn|] eqn:Hans; [|left; congruence];
    destruct (Node.init (VDict _) "" 0) as [quen|] eqn:Hque; [|left; congruence];
    destruct (init_question _ _ _ _ _ _ _ Hque) as (Hq & _);
    rewrite Hq in H; cbn [hash] in H; cbv beta iota in H;
    destruct (hash (WebChat.node_id s)) as [h|] eqn:Hh; cbv beta iota in H;
      [|left; congruence];
    destruct (WebChat._mapping s !! h) as [prev|] eqn:Hprev; cbv beta iota in H;
      [|left; congruence];
    destruct (Node.children_append prev (VStr u1)) as [prev'|] eqn:Happ;
      cbv beta iota in H; [|left; congruence];
    destruct (hash (Node.node_id ansn)) as [ka|e1] eqn:Hka; cbv beta iota in H;
      [discriminate H|];
    injection H as <- <-; right; by exists h, prev, prev', (VStr u1).
Qed.

Lemma parent_known_mono (P Q : key -> Prop) (n : Node.t) :
  (forall k, P k -> Q k) -> Trace.parent_known P n -> Trace.parent_known Q n.
Proof. intros HPQ [Hn|(k & Hk & HP)]; [by left|right; eauto]. Qed.

Lemma node_ok_mono (P Q : key -> Prop) (k : key) (n : Node.t) :
  (forall k, P k -> Q k) -> Trace.node_ok P k n -> Trace.node_ok Q k n.
Proof.
  intros HPQ (Hh & Hw & Hp). repeat split; [done..|].
  by apply (parent_known_mono P).
Qed.

Lemma append_node_ok (P : key -> Prop) (k : key) (prev prev' : Node.t) (x : value) :
  Trace.node_ok P k prev ->
  Node.children_append prev x = Ok prev' ->
  Trace.node_ok P k prev'.
Proof.
  intros (Hh & Hw & Hp) Happ.
  unfold Node.children_append in Happ.
  destruct (Node.children prev) as [| | | |l|] eqn:E; try discriminate Happ.
  injection Happ as <-. split; [exact Hh|]. split; [|exact Hp].
  unfold Trace.well_formed in *. cbn. unfold Node.node in Hw. rewrite Hw.
  reflexivity.
Qed.

Lemma store_ok_append (m : gmap key Node.t) h prev prev' x :
  Trace.store_ok m ->
  m !! h = Some prev ->
  Node.children_append prev x = Ok prev' ->
  Trace.store_ok (<[h:=prev']> m).
Proof.
  intros Hm Hprev Happ. unfold Trace.store_ok.
  assert (forall k, is_Some (m !! k) -> is_Some (<[h:=prev']> m !! k)) as Hsub.
  { intros k Hk. rewrite lookup_insert_is_Some'. by right. }
  apply map_Forall_insert_2.
  - apply (append_node_ok _ _ prev _ x); [|done].
    apply (node_ok_mono (fun k => is_Some (m !! k))); [done|]. by apply Hm.
  - intros k n Hk. apply (node_ok_mono (fun k => is_Some (m !! k))); [done|].
    by apply Hm.
Qed.

(** X8. In every session a caller can hold (constructed, then used through
    [ask], whether it returns or raises, and the [base_url] setter), every
    node of the store is stored under the key of its own id, its
    attributes agree with the entries of its dict, and its parent is
    [None] or the id of a node in the store: parent links never dangle. *)
Theorem reachable_store_ok (s : WebChat.t) :
  Trace.reachable s -> Trace.store_ok (WebChat._mapping s).
Proof.
  induction 1 as [db dk dt base backend token cid nid s Hi
                 |c s r s' _ IH Hask
                 |u s r s' _ IH Hset].
  - destruct (SessionSpec.init_fields _ _ _ _ _ _ _ _ _ Hi) as (_ & _ & _ & ->).
    apply map_Forall_empty.
  - destruct c as [c u1 u2 message keep]. unfold Trace.ask in Hask. cbn in Hask.
    destruct r as [ans|e].
    + destruct (chat_id_cases s) as [Hc|Hc].
      * destruct (ask_first_ok _ _ _ _ _ _ _ _ Hc Hask)
          as (root_resp & ans_resp & treen & rootn & ansn & quen & cid & kr & ka
              & _ & _ & Hap & Hq & _ & Hkr & Hka & _ & ->
              & Ht & Htp & Hrp & Hqp & Hwt & Hwr & Hwa & Hwq).
        cbn. unfold Trace.store_ok.
        repeat apply map_Forall_insert_2; [..|apply map_Forall_empty].
        -- split; [by rewrite Hq|]. split; [done|]. right. exists kr.
           split; [by rewrite Hqp|]. rewrite !lookup_insert_is_Some'. auto.
        -- split; [done|]. split; [done|]. right. exists (KStr u2).
           split; [by rewrite Hap|]. rewrite !lookup_insert_is_Some'. auto.
        -- split; [done|]. split; [done|]. right. exists (KStr u1).
           split; [by rewrite Hrp|]. rewrite !lookup_insert_is_Some'. auto 6.
        -- split; [by rewrite Ht|]. split; [done|]. by left.
      * destruct (ask_next_ok _ _ _ _ _ _ _ _ Hc Hask)
          as (ansn & quen & h & prev & prev' & ka
              & -> & _ & Hh & Hprev & Happ & Hka & Hap & Hq & _ & Hqp & _
              & Hwa & Hwq).
        cbn. unfold Trace.store_ok.
        repeat apply map_Forall_insert_2.
        -- split; [by rewrite Hq|]. split; [done|]. right. exists h.
           split; [by rewrite Hqp|]. rewrite !lookup_insert_is_Some'. auto.
        -- split; [done|]. split; [done|]. right. exists (KStr u1 : key).
           split; [by rewrite Hap|]. rewrite !lookup_insert_is_Some'. auto.
        -- apply (append_node_ok _ _ prev _ (VStr u1)); [|done].
           apply (node_ok_mono (fun k => is_Some (WebChat._mapping s !! k)));
             [|by apply IH].
           intros k Hk. rewrite !lookup_insert_is_Some'. auto.
        -- intros k n Hk.
           apply (node_ok_mono (fun k => is_Some (WebChat._mapping s !! k)));
             [|by apply IH].
           intros k' Hk'. rewrite !lookup_insert_is_Some'. auto.
    + destruct (ask_raise_mapping _ _ _ _ _ _ _ _ Hask)
        as [->|(h & prev & prev' & x & Hprev & Happ & ->)]; [done|].
      by apply (store_ok_append _ _ prev _ x).
  - unfold WebChat.set_base_url, WebChat.assign in Hset.
    injection Hset as _ <-. exact IH.
Qed.

Lemma reachable_store_ok_witness :
  Trace.store_ok (WebChat._mapping after_second).
Proof.
  apply (reachable_store_ok after_second).
  apply (Trace.reachable_ask second_call after_first (Ok (VStr "fine")));
    [|vm_compute; reflexivity].
  apply (Trace.reachable_ask first_call fresh (Ok (VStr "hi")));
    [|vm_compute; reflexivity].
  apply (Trace.reachable_init None None None
           (Some "https://host") None (Some "token") None None).
  reflexivity.
Defined.

Lemma ask_raise_credentials c u1 u2 message keep s e s' :
  WebChat.ask c u1 u2 message keep s = (Raise e, s') ->
  WebChat._base_url s' = WebChat._base_url s /\
  WebChat._access_token s' = WebChat._access_token s /\
  WebChat.backend_url s' = WebChat.backend_url s.
Proof.
  intros H. ask_unfold H.
  destruct (WebChat.chat_id s) eqn:Hcs.
  { destruct c as [[root_resp ans_resp]|e0]; [|by simplify_eq].
    destruct (setitem root_resp "children" _) as [r1|] eqn:Hr1; [|by simplify_eq].
    destruct (setitem r1 "parent" _) as [r2|] eqn:Hr2; [|by simplify_eq].
    destruct (setitem ans_resp "children" _) as [a1|] eqn:Ha1; [|by simplify_eq].
    destruct (setitem a1 "parent" _) as [a2|] eqn:Ha2; [|by simplify_eq].
    destruct (Node.init r2 _ _) as [rootn|] eqn:Hroot; [|by simplify_eq].
    destruct (Node.init (VDict (("id", VStr u1) :: _)) _ _) as [treen|] eqn:Htree;
      [|by simplify_eq].
    destruct (Node.init a2 _ _) as [ansn|] eqn:Hans; [|by simplify_eq].
    destruct (Node.init (VDict (("id", VStr u2) :: _)) _ _) as [quen|] eqn:Hque;
      [|by simplify_eq].
    destruct (getitem a2 "conversation_id") as [cid|] eqn:Hcid; [|by simplify_eq].
    destruct (WebChat.dict_literal _ _) as [m|e1] eqn:Hm; [discriminate|].
    by injection H as <- <-. }
  all: destruct c as [[root_resp ans_resp]|e0]; [|by simplify_eq];
    destruct (setitem ans_resp "parent" (VStr u1)) as [a2|] eqn:Ha2;
      [|by simplify_eq];
    destruct (Node.init a2 "" 0) as [ansn|] eqn:Hans; [|by simplify_eq];
    destruct (Node.init (VDict _) "" 0) as [quen|] eqn:Hque; [|by simplify_eq];
    destruct (init_question _ _ _ _ _ _ _ Hque) as (Hq & _);
    rewrite Hq in H; cbn [hash] in H; cbv beta iota in H;
    destruct (hash (WebChat.node_id s)) as [h|] eqn:Hh; cbv beta iota in H;
      [|by simplify_eq];
    destruct (WebChat._mapping s !! h) as [prev|] eqn:Hprev; cbv beta iota in H;
      [|by simplify_eq];
    destruct (Node.children_append prev (VStr u1)) as [prev'|] eqn:Happ;
      cbv beta iota in H; [|by simplify_eq];
    destruct (hash (Node.node_id ansn)) as [ka|e1] eqn:Hka; cbv beta iota in H;
      [discriminate H|];
    by injection H as <- <-.
Qed.

(** X9. Whatever [ask] does, return or raise, it leaves the base url, the
    access token and the backend url of the session as they were. *)
Theorem ask_keeps_credentials c u1 u2 message keep s r s' :
  WebChat.ask c u1 u2 message keep s = (r, s') ->
  WebChat.base_url s' = WebChat.base_url s /\
  WebChat.access_token s' = WebChat.access_token s /\
  WebChat.backend_url s' = WebChat.backend_url s.
Proof.
  intros H. destruct r as [ans|e].
  - destruct (chat_id_cases s) as [Hc|Hc].
    + destruct (ask_first_ok _ _ _ _ _ _ _ _ Hc H)
        as (? & ? & ? & ? & ? & ? & ? & ? & ?
            & _ & _ & _ & _ & _ & _ & _ & _ & -> & _).
      done.
    + destruct (ask_next_ok _ _ _ _ _ _ _ _ Hc H)
        as (? & ? & ? & ? & ? & ? & -> & _).
      done.
  - by apply ask_raise_credentials in H.
Qed.

Lemma ask_keeps_credentials_witness :
  WebChat.base_url after_first = WebChat.base_url fresh /\
  WebChat.access_token after_first = WebChat.access_token fresh /\
  WebChat.backend_url after_first = WebChat.backend_url fresh.
Proof.
  apply (ask_keeps_credentials (Trace.completion first_call) "t" "q" "hello" true
           fresh (Ok (VStr "hi")) after_first).
  vm_compute. reflexivity.
Defined.

End StoreInvariant.

(** ** The requests of a session *)

Module SessionCalls.
Import Examples.

Lemma ends_with_sep_app (a : string) (c : ascii) (b : string) :
  ends_with_sep (a +:+ String c b) = ends_with_sep (String c b).
Proof.
  induction a as [|x a IH]; [reflexivity|].
  rewrite SplitSpec.append_cons.
  destruct a as [|y a]; [reflexivity|].
  rewrite SplitSpec.append_cons in *. exact IH.
Qed.

Lemma app_nonempty (a : string) (c : ascii) (b : string) :
  String.eqb (a +:+ String c b) "" = false.
Proof. destruct a; reflexivity. Qed.

(** A second path joined to [os.path.join(b, "backend-api")] is appended
    after a [/]: the first join neither is empty nor ends with [/]. *)
Lemma join_backend_api (b p : string) :
  String.prefix "/" p = false ->
  os_path_join (os_path_join b "backend-api") p
  = os_path_join b "backend-api" +:+ "/" +:+ p.
Proof.
  intros Hp. unfold os_path_join at 1. rewrite Hp.
  assert (exists a, os_path_join b "backend-api" = a +:+ "backend-api") as [a ->].
  { unfold os_path_join. cbn [String.prefix].
    destruct (String.eqb b "" || ends_with_sep b); [by exists b|].
    exists (b +:+ "/"). by rewrite SplitSpec.append_assoc. }
  by rewrite app_nonempty, ends_with_sep_app.
Qed.

Lemma init_backend_url db dt base token cid nid s :
  WebChat.init db None dt base None token cid nid = Ok s ->
  exists b, WebChat.base_url s = Some b /\
            WebChat.backend_url s = os_path_join b "backend-api".
Proof.
  unfold WebChat.init. cbn [WebChat.str_or].
  unfold mbind, result_bind. intros H.
  destruct (WebChat.str_or base db) as [b|] eqn:Hb; [|discriminate H].
  destruct (WebChat.str_or token dt); [|discriminate H].
  injection H as <-. by exists b.
Qed.

(** X10. A session constructed from a base url alone (no backend url given
    and none set for the package) takes [os.path.join(base, "backend-api")]
    as its backend url and hands it to request.py as the base url, which
    joins [backend-api/...] to it once more: [account_status] requests
    [<base>/backend-api/backend-api/accounts/check], returns the
    [account_plan] entry of the answer and leaves the session as it is. *)
Theorem account_status_url send db dt base token cid nid s :
  WebChat.init db None dt base None token cid nid = Ok s ->
  exists b,
    WebChat.base_url s = Some b /\
    WebChat.account_status send s =
      (resp ← send (Api.Request "GET"
                      (os_path_join b "backend-api"
                         +:+ "/" +:+ "backend-api/accounts/check")
                      (Api.json_headers (WebChat.access_token s)) None None);
       getitem resp "account_plan", s).
Proof.
  intros H. destruct (init_backend_url _ _ _ _ _ _ _ H) as (b & Hb & Hk).
  exists b. split; [exact Hb|].
  unfold WebChat.account_status, Api.get_account_status,
    Api.get_account_status_request.
  unfold mbind, WebChat.M_bind, WebChat.self, WebChat.lift. cbn beta iota.
  rewrite Hk, join_backend_api by reflexivity.
  unfold result_bind. by destruct (send _) as [resp|e]; [destruct (getitem _ _)|].
Qed.

Lemma account_status_url_witness :
  exists b,
    WebChat.base_url fresh = Some b /\
    WebChat.account_status server fresh =
      (resp ← server (Api.Request "GET"
                        (os_path_join b "backend-api"
                           +:+ "/" +:+ "backend-api/accounts/check")
                        (Api.json_headers (WebChat.access_token fresh)) None None);
       getitem resp "account_plan", fresh).
Proof.
  apply (account_status_url server None None (Some "https://host") (Some "token")
           None None fresh).
  reflexivity.
Defined.

Lemma mapM_Ok {A B} (f : A -> result B) (l : list A) (out : list B) :
  mapM f l = Ok out -> Forall2 (fun x y => f x = Ok y) l out.
Proof.
  revert out. induction l as [|x l IH]; intros out H; cbn in H.
  - unfold mret, result_ret in H. injection H as <-. constructor.
  - unfold mbind, result_bind, mret, result_ret in H.
    destruct (f x) as [y|] eqn:Hy; [|discriminate H].
    destruct (mapM f l) as [k|] eqn:Hk; [|discriminate H].
    injection H as <-. constructor; [exact Hy|]. by apply IH.
Qed.

(** X11. [chat_list], when it returns, gives one entry per element of
    the answer's [items], in the same order, each holding the element's
    [id] under [conversation_id] and its [title], and nothing else; the
    session is unchanged. *)
Theorem chat_list_entries send offset limit order s out s' :
  WebChat.chat_list send offset limit order s = (Ok out, s') ->
  s' = s /\
  exists resp its elements,
    send (Api.get_chat_list_request (WebChat.backend_url s)
            (WebChat.access_token s) offset limit order) = Ok resp /\
    getitem resp "items" = Ok its /\
    WebChat.iter its = Ok elements /\
    Forall2 (fun item entry =>
               exists id title,
                 getitem item "id" = Ok id /\
                 getitem item "title" = Ok title /\
                 entry = VDict [("conversation_id", id); ("title", title)])
            elements out.
Proof.
  unfold WebChat.chat_list, Api.get_chat_list.
  unfold mbind at 1 2 3 4, WebChat.M_bind, WebChat.self, WebChat.lift.
  cbn beta iota. intros H.
  destruct (send _) as [resp|] eqn:Hsend; [|discriminate H].
  destruct (getitem resp "items") as [its|] eqn:Hits; [|discriminate H].
  destruct (WebChat.iter its) as [elements|] eqn:Hiter; [|discriminate H].
  injection H as H <-. split; [reflexivity|].
  exists resp, its, elements. repeat split; try done.
  apply mapM_Ok in H. eapply Forall2_impl; [exact H|].
  intros item entry Hitem. cbv beta in Hitem.
  unfold mbind, result_bind, mret, result_ret in Hitem.
  destruct (getitem item "id") as [id|]; [|discriminate Hitem].
  destruct (getitem item "title") as [title|]; [|discriminate Hitem].
  injection Hitem as <-. by exists id, title.
Qed.

Lemma chat_list_entries_witness :
  fresh = fresh /\
  exists resp its elements,
    server (Api.get_chat_list_request (WebChat.backend_url fresh)
              (WebChat.access_token fresh) (VInt 0) (VInt 3) "updated") = Ok resp /\
    getitem resp "items" = Ok its /\
    WebChat.iter its = Ok elements /\
    Forall2 (fun item entry =>
               exists id title,
                 getitem item "id" = Ok id /\
                 getitem item "title" = Ok title /\
                 entry = VDict [("conversation_id", id); ("title", title)])
            elements [VDict [("conversation_id", VStr "c1"); ("title", VStr "t1")]].
Proof.
  apply (chat_list_entries server (VInt 0) (VInt 3) "updated" fresh _ fresh).
  reflexivity.
Defined.

Lemma mapM_keys (m : dict) (ks : list string) (out : list (string * Node.t)) :
  Forall2 (fun x y =>
             (let '(key, node) := x in
              n ← Node.init node "" 0; mret (key, n)) = Ok y)
          (map (fun k => (k, get m k)) ks) out ->
  map fst out = ks.
Proof.
  revert out. induction ks as [|k ks IH]; intros out H; cbn in H.
  - by inversion H.
  - inversion H as [|x y l l' Hxy Hrest]; subst. cbn.
    rewrite (IH _ Hrest). f_equal.
    unfold mbind, result_bind, mret, result_ret in Hxy.
    destruct (Node.init _ _ _); [|discriminate Hxy]. by injection Hxy as <-.
Qed.

Lemma mapM_nodes (m : dict) (ks : list string) (out : list (string * Node.t)) :
  Forall2 (fun x y =>
             (let '(key, node) := x in
              n ← Node.init node "" 0; mret (key, n)) = Ok y)
          (map (fun k => (k, get m k)) ks) out ->
  Forall (fun kn => Node.init (get m kn.1) "" 0 = Ok kn.2) out.
Proof.
  revert out. induction ks as [|k ks IH]; intros out H; cbn in H.
  - inversion H. constructor.
  - inversion H as [|x y l l' Hxy Hrest]; subst.
    constructor; [|by apply IH].
    unfold mbind, result_bind, mret, result_ret in Hxy.
    destruct (Node.init (get m k) "" 0) as [n|] eqn:Hn; [|discriminate Hxy].
    by injection Hxy as <-.
Qed.

(** X12. [mapping_by_id]. Without a chat id, given or of the session, it
    raises [AssertionError] whatever the server would answer: no request
    is made. When it returns, the chat id it used is a string, the result
    has exactly the keys of the answer's [mapping], in their order, each
    with the node built from the raw node under that key, and the session
    is unchanged. *)
Theorem mapping_by_id_keys send chat_id s :
  (truthy chat_id = false -> WebChat.chat_id s = VNone ->
   WebChat.mapping_by_id send chat_id s = (Raise AssertionError, s)) /\
  (forall out s',
     WebChat.mapping_by_id send chat_id s = (Ok out, s') ->
     s' = s /\
     exists cid resp m,
       (if truthy chat_id then chat_id else WebChat.chat_id s) = VStr cid /\
       send (Api.get_chat_by_id_request (WebChat.backend_url s)
               (WebChat.access_token s) cid) = Ok resp /\
       getitem resp "mapping" = Ok (VDict m) /\
       map fst out = WebChat.dict_keys [] m /\
       Forall (fun kn => Node.init (get m kn.1) "" 0 = Ok kn.2) out).
Proof.
  unfold WebChat.mapping_by_id, Api.get_chat_by_id, WebChat.raise, WebChat.lift.
  split.
  - intros Ht Hc. unfold mbind, WebChat.M_bind, WebChat.self. cbn beta iota.
    by rewrite Ht, Hc.
  - intros out s'. unfold mbind at 1, WebChat.M_bind at 1, WebChat.self.
    cbn beta iota.
    destruct (truthy chat_id);
      [destruct chat_id as [| | |cid| |]
      |destruct (WebChat.chat_id s) as [| | |cid| |]];
      intros H; try discriminate H;
      unfold mbind, WebChat.M_bind in H; cbn beta iota in H.
    all: destruct (send _) as [resp|] eqn:Hsend; [|discriminate H].
    all: destruct (getitem resp "mapping") as [mapping|] eqn:Hm; [|discriminate H].
    all: destruct mapping as [| | | | |m]; try discriminate H.
    all: cbn [WebChat.items] in H; injection H as H <-; split; [reflexivity|].
    all: exists cid, resp, m; repeat split; try done.
    all: apply mapM_Ok in H; by eauto using mapM_keys, mapM_nodes.
Qed.

Lemma mapping_by_id_keys_witness :
  WebChat.mapping_by_id server VNone fresh = (Raise AssertionError, fresh) /\
  (fresh = fresh /\
   exists cid resp m,
     (if truthy (VStr "c") then VStr "c" else WebChat.chat_id fresh) = VStr cid /\
     server (Api.get_chat_by_id_request (WebChat.backend_url fresh)
               (WebChat.access_token fresh) cid) = Ok resp /\
     getitem resp "mapping" = Ok (VDict m) /\
     map fst [("n1", n1_node)] = WebChat.dict_keys [] m /\
     Forall (fun kn => Node.init (get m kn.1) "" 0 = Ok kn.2) [("n1", n1_node)]).
Proof.
  split.
  - apply (proj1 (mapping_by_id_keys server VNone fresh)); reflexivity.
  - apply (proj2 (mapping_by_id_keys server (VStr "c") fresh)
             [("n1", n1_node)] fresh).
    reflexivity.
Defined.

(** X13. [create_chat] passes its arguments to [continue_chat] by
    position, where they land one parameter off: in the body it sends,
    [parent_message_id] is the model name, [conversation_id] is the
    [history_and_training_disabled] flag, [model] is the fresh parent
    uuid, and [history_and_training_disabled] is always [False]. *)
Theorem create_chat_body base_url access_token prompt model hist parent_id uuid :
  exists body,
    Api.data (Api.create_chat_request base_url access_token prompt model hist
                parent_id uuid) = Some body /\
    getitem body "parent_message_id" = Ok (VStr model) /\
    getitem body "conversation_id" = Ok (VBool hist) /\
    getitem body "model" = Ok (VStr parent_id) /\
    getitem body "history_and_training_disabled" = Ok (VBool false) /\
    Api.url (Api.create_chat_request base_url access_token prompt model hist
               parent_id uuid)
    = os_path_join base_url "backend-api/conversation".
Proof. eexists. split; [reflexivity|]. by repeat split. Qed.

(** X14. The ways the constructor fails. It raises [TypeError] exactly
    when there is neither a backend url nor a base url (given or of the
    package) to join, and otherwise [AssertionError] exactly when there is
    no access token; the assertion on the backend url never fails. *)
Theorem init_outcome db dk dt base backend token cid nid :
  let no_backend :=
    match WebChat.str_or backend dk with
    | Some u => String.eqb u ""
    | None => true
    end in
  match WebChat.init db dk dt base backend token cid nid with
  | Raise e =>
      if no_backend && bool_decide (WebChat.str_or base db = None)
      then e = TypeError
      else e = AssertionError /\ WebChat.str_or token dt = None
  | Ok s =>
      (no_backend = true -> WebChat.str_or base db <> None) /\
      WebChat.access_token s = WebChat.str_or token dt /\
      WebChat.access_token s <> None
  end.
Proof.
  unfold WebChat.init, mbind, result_bind. cbn zeta.
  destruct (WebChat.str_or backend dk) as [u|];
    [destruct (String.eqb u "")|];
    destruct (WebChat.str_or base db) as [b|];
    destruct (WebChat.str_or token dt) as [t|]; cbn; done.
Qed.

Lemma init_outcome_witness :
  match WebChat.init None None None None None None None None with
  | Raise e => e = TypeError
  | Ok s => False
  end.
Proof.
  exact (init_outcome None None None None None None None None).
Defined.

(** X15. [valid_models], when it returns, gives the [category] of every
    element of the answer's [categories], in the same order; it asks for
    the models with [history_and_training_disabled] false and leaves the
    session unchanged. When [categories] is a non-empty dict or string
    the comprehension runs over keys or characters, and subscripting
    those by ['category'] raises [TypeError]. *)
Theorem valid_models_categories send s :
  (forall out s',
     WebChat.valid_models send s = (Ok out, s') ->
     s' = s /\
     exists resp categories models,
       send (Api.get_models_request (WebChat.backend_url s)
               (WebChat.access_token s) false) = Ok resp /\
       getitem resp "categories" = Ok categories /\
       WebChat.iter categories = Ok models /\
       Forall2 (fun model category => getitem model "category" = Ok category)
               models out) /\
  (forall resp k v d,
     send (Api.get_models_request (WebChat.backend_url s)
             (WebChat.access_token s) false) = Ok resp ->
     getitem resp "categories" = Ok (VDict ((k, v) :: d)) ->
     WebChat.valid_models send s = (Raise TypeError, s)).
Proof.
  unfold WebChat.valid_models, Api.get_models.
  unfold mbind, WebChat.M_bind, WebChat.self, WebChat.lift.
  cbn beta iota. split.
  - intros out s' H.
    destruct (send _) as [resp|] eqn:Hsend; [|discriminate H].
    destruct (getitem resp "categories") as [categories|] eqn:Hc; [|discriminate H].
    destruct (WebChat.iter categories) as [models|] eqn:Hiter; [|discriminate H].
    injection H as H <-. split; [reflexivity|].
    exists resp, categories, models. repeat split; try done.
    by apply mapM_Ok.
  - intros resp k v d -> ->. cbn. by rewrite bool_decide_eq_false_2 by set_solver.
Qed.

Lemma valid_models_categories_witness :
  WebChat.valid_models
    (fun _ => Ok (VDict [("categories", VDict [("gpt", VStr "x")])])) fresh
  = (Raise TypeError, fresh).
Proof.
  apply (proj2 (valid_models_categories
                  (fun _ => Ok (VDict [("categories", VDict [("gpt", VStr "x")])]))
                  fresh)
           (VDict [("categories", VDict [("gpt", VStr "x")])]) "gpt" (VStr "x") []);
    reflexivity.
Defined.

End SessionCalls.

(** ** What [ask] returns, and the split of the response text *)

Module AskAnswer.
Import Examples AskSpec.

Lemma init_message (v : value) name depth (n : Node.t) :
  Node.init v name depth = Ok n ->
  exists d, v = VDict d /\ message_of d = Ok (Node.message n).
Proof.
  unfold Node.init, Node.simplify, py_get, message_of. intros H.
  destruct v as [| | | | |d]; try discriminate H. exists d. split; [done|].
  unfold mret, mbind, result_ret, result_bind in *.
  destruct (match get d "message" with VDict _ => _ | _ => _ end)
    as [msg|] eqn:Hmsg; [|discriminate H].
  destruct (py_or (get d "id") _) as [i|]; [|discriminate H].
  cbn in H. injection H as <-. cbn. rewrite <- Hmsg.
  by destruct (get d "message").
Qed.

Lemma message_of_set (k : string) (x : value) (d : dict) :
  k <> "message" -> message_of (dict_set k x d) = message_of d.
Proof. intros Hk. unfold message_of, get. by rewrite dict_get_set_ne. Qed.

(** X16. What [ask] returns: the completion gave a pair whose second
    payload is a dict, and the value returned is the message of that
    payload as [Node.simplify] reads it, the first content part when the
    message is a dict and the message itself otherwise. *)
Theorem ask_returns_message c u1 u2 message keep s ans s' :
  WebChat.ask c u1 u2 message keep s = (Ok ans, s') ->
  exists root_resp d,
    c = Ok (root_resp, VDict d) /\ message_of d = Ok ans.
Proof.
  intros H. ask_unfold H.
  destruct (WebChat.chat_id s) eqn:Hcs.
  { destruct c as [[root_resp ans_resp]|e]; [|discriminate].
    destruct (setitem root_resp "children" _) as [r1|] eqn:Hr1; [|discriminate].
    destruct (setitem r1 "parent" _) as [r2|] eqn:Hr2; [|discriminate].
    destruct (setitem ans_resp "children" _) as [a1|] eqn:Ha1; [|discriminate].
    destruct (setitem a1 "parent" _) as [a2|] eqn:Ha2; [|discriminate].
    destruct (Node.init r2 _ _) as [rootn|] eqn:Hroot; [|discriminate].
    destruct (Node.init (VDict (("id", VStr u1) :: _)) _ _) as [treen|] eqn:Htree;
      [|discriminate].
    destruct (Node.init a2 _ _) as [ansn|] eqn:Hans; [|discriminate].
    destruct (Node.init (VDict (("id", VStr u2) :: _)) _ _) as [quen|] eqn:Hque;
      [|discriminate].
    destruct (getitem a2 "conversation_id") as [cid|] eqn:Hcid; [|discriminate].
    destruct (WebChat.dict_literal _ _) as [m|] eqn:Hm; [|discriminate].
    injection H as <- _.
    destruct ans_resp as [| | | | |d]; try discriminate Ha1.
    cbn in Ha1. injection Ha1 as <-. cbn in Ha2. injection Ha2 as <-.
    destruct (init_message _ _ _ _ Hans) as (? & E & Hmsg). injection E as <-.
    exists root_resp, d. split; [done|].
    rewrite <- Hmsg. by rewrite !message_of_set. }
  all: destruct c as [[root_resp ans_resp]|e]; [|discriminate H];
    destruct (setitem ans_resp "parent" (VStr u1)) as [a2|] eqn:Ha2;
      [|discriminate H];
    destruct (Node.init a2 "" 0) as [ansn|] eqn:Hans; [|discriminate H];
    destruct (Node.init (VDict _) "" 0) as [quen|] eqn:Hque; [|discriminate H];
    destruct (init_question _ _ _ _ _ _ _ Hque) as (Hq & _);
    rewrite Hq in H; cbn [hash] in H;
    repeat step H;
    injection H as <- _;
    destruct ans_resp as [| | | | |ad]; try discriminate Ha2;
    cbn in Ha2; injection Ha2 as <-;
    destruct (init_message _ _ _ _ Hans) as (? & E & Hmsg); injection E as <-;
    exists root_resp, ad; split; [done|];
    rewrite <- Hmsg; by rewrite !message_of_set.
Qed.

Lemma ask_returns_message_witness :
  exists root_resp d,
    Trace.completion first_call = Ok (root_resp, VDict d) /\
    message_of d = Ok (VStr "hi").
Proof.
  apply (ask_returns_message (Trace.completion first_call) "t" "q" "hello" true
           fresh (VStr "hi") after_first).
  vm_compute. reflexivity.
Defined.

(** X17. The split of the response text on [data:] loses nothing: there
    is always at least one piece, and the pieces joined by [data:] are the
    text again. *)
Theorem split_data_roundtrip (text : string) :
  Request.split "data:" text <> [] /\
  String.concat "data:" (Request.split "data:" text) = text.
Proof.
  split.
  - apply RequestSpec.split_go_nonempty.
  - apply SplitSpec.split_join. discriminate.
Qed.

End AskAnswer.

(** ** [newchat_by_id] *)

Module NewChat.
Import Examples.



End NewChat.
